(** * Azure serverless news workflow: a shallow embedding of [function_app.py]

    The three Azure Functions of [function_app.py] (the hourly timer trigger
    that scrapes the BBC homepage, the blob trigger that adds a sentiment
    block, and the HTTP endpoint that seeds fake articles) are embedded as
    Rocq functions over an explicit world: the blob store, the outbound
    requests made so far and the log.  The external collaborators
    ([requests], [BeautifulSoup]'s parser, [TextBlob], the storage service)
    are fields of an environment record. *)

From Stdlib Require Import ZArith NArith String Ascii List DecimalString.
From Stdlib Require Import Floats.SpecFloat.
From stdpp Require Import gmap list strings.

#[local] Set Warnings "-register-all".
Local Open Scope N_scope.

(** ** Python strings

    A Python [str] is a sequence of code points, a [bytes] object a
    sequence of octets; both are lists of [N]. *)

Module PyStr.

Abbreviation pystr := (list N) (only parsing).
Abbreviation bytes := (list N) (only parsing).

(** A source literal (ASCII in [function_app.py]) as a [str]. *)
Definition u (s : string) : pystr := map N_of_ascii (list_ascii_of_string s).

(** [str(i)] for an [int]. *)
Definition str_of_Z (z : Z) : pystr := u (NilZero.string_of_int (Z.to_int z)).

Definition str_eqb (a b : pystr) : bool := bool_decide (a = b).

#[global] Arguments u _ : simpl never.
#[global] Arguments str_of_Z _ : simpl never.

(** [s.startswith(p)] *)
Fixpoint startswith (s p : pystr) {struct p} : bool :=
  match p, s with
  | [], _ => true
  | _ :: _, [] => false
  | c :: p', d :: s' => (c =? d) && startswith s' p'
  end.

(** [s[len(p):]] when [s.startswith(p)] *)
Fixpoint strip_prefix (s p : pystr) {struct p} : option pystr :=
  match p, s with
  | [], _ => Some s
  | _ :: _, [] => None
  | c :: p', d :: s' => if c =? d then strip_prefix s' p' else None
  end.

(** [s.replace(old, new)]: every non-overlapping occurrence of [old],
    scanning left to right.  With an empty [old], Python inserts [new]
    before every character and at the end. *)
Fixpoint replace_nonempty (old new s : pystr) (fuel : nat) : pystr :=
  match fuel with
  | O => s
  | S fuel =>
      match strip_prefix s old with
      | Some rest => new ++ replace_nonempty old new rest fuel
      | None =>
          match s with
          | [] => []
          | c :: s' => c :: replace_nonempty old new s' fuel
          end
      end
  end.

Definition replace (s old new : pystr) : pystr :=
  match old with
  | [] => new ++ flat_map (fun c => c :: new) s
  | _ :: _ => replace_nonempty old new s (S (length s))
  end.

(** [sep.join(parts)] *)
Fixpoint join (sep : pystr) (parts : list pystr) : pystr :=
  match parts with
  | [] => []
  | [p] => p
  | p :: ps => p ++ sep ++ join sep ps
  end.

(** [c.isspace()]: the code points [str.strip()] removes. *)
Definition isspace (c : N) : bool :=
  ((9 <=? c) && (c <=? 13)) || ((28 <=? c) && (c <=? 32))
  || (c =? 133) || (c =? 160) || (c =? 5760)
  || ((8192 <=? c) && (c <=? 8202))
  || (c =? 8232) || (c =? 8233) || (c =? 8239) || (c =? 8287) || (c =? 12288).

Fixpoint lstrip (s : pystr) : pystr :=
  match s with
  | c :: s' => if isspace c then lstrip s' else s
  | [] => []
  end.

Definition rstrip (s : pystr) : pystr := rev (lstrip (rev s)).

(** [s.strip()] *)
Definition strip (s : pystr) : pystr := rstrip (lstrip s).

(** Truth value of a [str]: [not s] holds exactly for the empty string. *)
Definition nonempty (s : pystr) : bool :=
  match s with [] => false | _ :: _ => true end.

End PyStr.
Import PyStr.

(** ** UTF-8

    [upload_blob] sends a [str] as its UTF-8 encoding (it raises on a lone
    surrogate), and [json.loads] decodes the [bytes] it is given. *)

Module Utf8.

Definition is_surrogate (c : N) : bool := (55296 <=? c) && (c <=? 57343).

(** The octets of one code point; [None] is [UnicodeEncodeError]. *)
Definition encode_cp (c : N) : option bytes :=
  if c <? 128 then Some [c]
  else if c <? 2048 then Some [192 + c / 64; 128 + c mod 64]
  else if c <? 65536 then
    if is_surrogate c then None
    else Some [224 + c / 4096; 128 + (c / 64) mod 64; 128 + c mod 64]
  else if c <? 1114112 then
    Some [240 + c / 262144; 128 + (c / 4096) mod 64;
          128 + (c / 64) mod 64; 128 + c mod 64]
  else None.

(** [s.encode('utf-8')] *)
Fixpoint encode (s : pystr) : option bytes :=
  match s with
  | [] => Some []
  | c :: s' =>
      match encode_cp c, encode s' with
      | Some b, Some bs => Some (b ++ bs)
      | _, _ => None
      end
  end.

Definition is_cont (b : N) : bool := (128 <=? b) && (b <? 192).

(** [b.decode('utf-8', 'surrogatepass')]: shortest forms only, at most
    U+10FFFF, and three-octet surrogates are let through. *)
Fixpoint decode (b : bytes) : option pystr :=
  match b with
  | [] => Some []
  | b0 :: r0 =>
      if b0 <? 128 then option_map (cons b0) (decode r0)
      else if b0 <? 194 then None
      else if b0 <? 224 then
        match r0 with
        | b1 :: r1 =>
            if is_cont b1
            then option_map (cons ((b0 - 192) * 64 + (b1 - 128))) (decode r1)
            else None
        | _ => None
        end
      else if b0 <? 240 then
        match r0 with
        | b1 :: b2 :: r2 =>
            let c := (b0 - 224) * 4096 + (b1 - 128) * 64 + (b2 - 128) in
            if is_cont b1 && is_cont b2 && (2048 <=? c)
            then option_map (cons c) (decode r2)
            else None
        | _ => None
        end
      else if b0 <? 245 then
        match r0 with
        | b1 :: b2 :: b3 :: r3 =>
            let c := (b0 - 240) * 262144 + (b1 - 128) * 4096
                     + (b2 - 128) * 64 + (b3 - 128) in
            if is_cont b1 && is_cont b2 && is_cont b3
               && (65536 <=? c) && (c <? 1114112)
            then option_map (cons c) (decode r3)
            else None
        | _ => None
        end
      else None
  end.

End Utf8.

(** ** Python values and the [json] module

    The values [json.loads] produces and [json.dumps] accepts.  A [dict]
    keeps its keys in insertion order, so it is an association list whose
    keys are kept distinct by [dict_set]. *)

Module Json.

Inductive pyval :=
| PNone
| PBool (b : bool)
| PInt (z : Z)
| PFloat (f : spec_float)
| PStr (s : pystr)
| PList (l : list pyval)
| PDict (d : list (pystr * pyval)).

(** [d.get(k)] *)
Fixpoint dict_get (d : list (pystr * pyval)) (k : pystr) : option pyval :=
  match d with
  | [] => None
  | (k', v) :: d' => if str_eqb k' k then Some v else dict_get d' k
  end.

(** [d[k] = v]: an existing key keeps its position, a new one goes last. *)
Fixpoint dict_set (d : list (pystr * pyval)) (k : pystr) (v : pyval)
  : list (pystr * pyval) :=
  match d with
  | [] => [(k, v)]
  | (k', v') :: d' =>
      if str_eqb k' k then (k', v) :: d' else (k', v') :: dict_set d' k v
  end.

(** Truth value of a Python object, as [if not x] tests it. *)
Definition truthy (v : pyval) : bool :=
  match v with
  | PNone => false
  | PBool b => b
  | PInt z => negb (z =? 0)%Z
  | PFloat (S754_zero _) => false
  | PFloat _ => true
  | PStr s => nonempty s
  | PList l => match l with [] => false | _ => true end
  | PDict d => match d with [] => false | _ => true end
  end.

(** *** Encoder ([json.encoder]) *)

Definition hex_digit (n : N) : N :=
  if n <? 10 then 48 + n else 87 + n.

(** ['\\u{0:04x}'.format(n)] *)
Definition escape_u (n : N) : pystr :=
  [92; 117; hex_digit (n / 4096 mod 16); hex_digit (n / 256 mod 16);
   hex_digit (n / 16 mod 16); hex_digit (n mod 16)].

(** [ESCAPE_DCT]: the short escapes, and [\u00XX] for the other controls. *)
Definition escape_dct (c : N) : option pystr :=
  if c =? 92 then Some [92; 92]
  else if c =? 34 then Some [92; 34]
  else if c =? 8 then Some [92; 98]
  else if c =? 12 then Some [92; 102]
  else if c =? 10 then Some [92; 110]
  else if c =? 13 then Some [92; 114]
  else if c =? 9 then Some [92; 116]
  else if c <? 32 then Some (escape_u c)
  else None.

(** One character under [ensure_ascii=False]: only what [ESCAPE] matches
    is replaced. *)
Definition escape_char (c : N) : pystr :=
  match escape_dct c with Some e => e | None => [c] end.

(** One character under [ensure_ascii=True]: what [ESCAPE_ASCII] matches,
    that is everything outside [' '..'~'] as well. *)
Definition escape_char_ascii (c : N) : pystr :=
  match escape_dct c with
  | Some e => e
  | None =>
      if (32 <=? c) && (c <=? 126) then [c]
      else if c <? 65536 then escape_u c
      else
        let n := c - 65536 in
        escape_u (55296 + (n / 1024) mod 1024) ++ escape_u (56320 + n mod 1024)
  end.

(** [py_encode_basestring] and [py_encode_basestring_ascii] *)
Definition encode_basestring (ensure_ascii : bool) (s : pystr) : pystr :=
  34 :: flat_map (if ensure_ascii then escape_char_ascii else escape_char) s
     ++ [34].

Record encoder := {
  ensure_ascii : bool;
  indent : option nat;
  float_repr : spec_float -> pystr   (* [float.__repr__] on finite floats *)
}.

Definition floatstr (enc : encoder) (f : spec_float) : pystr :=
  match f with
  | S754_nan => u "NaN"
  | S754_infinity false => u "Infinity"
  | S754_infinity true => u "-Infinity"
  | _ => float_repr enc f
  end.

Definition item_separator (enc : encoder) : pystr :=
  match indent enc with Some _ => u "," | None => u ", " end.

Definition key_separator : pystr := u ": ".

(** ['\n' + _indent * level], or nothing without [indent]. *)
Definition newline_indent (enc : encoder) (level : nat) : pystr :=
  match indent enc with
  | Some n => 10 :: repeat 32 (n * level)%nat
  | None => []
  end.

(** [_iterencode], its chunks concatenated. *)
Fixpoint iterencode (enc : encoder) (level : nat) (v : pyval) : pystr :=
  match v with
  | PNone => u "null"
  | PBool true => u "true"
  | PBool false => u "false"
  | PInt z => str_of_Z z
  | PFloat f => floatstr enc f
  | PStr s => encode_basestring (ensure_ascii enc) s
  | PList [] => u "[]"
  | PList (x :: xs) =>
      u "[" ++ newline_indent enc (S level)
        ++ iterencode enc (S level) x
        ++ (fix items (l : list pyval) : pystr :=
              match l with
              | [] => []
              | y :: l' =>
                  item_separator enc ++ newline_indent enc (S level)
                    ++ iterencode enc (S level) y ++ items l'
              end) xs
        ++ newline_indent enc level ++ u "]"
  | PDict [] => u "{}"
  | PDict ((k, x) :: xs) =>
      u "{" ++ newline_indent enc (S level)
        ++ encode_basestring (ensure_ascii enc) k ++ key_separator
        ++ iterencode enc (S level) x
        ++ (fix items (l : list (pystr * pyval)) : pystr :=
              match l with
              | [] => []
              | (k', y) :: l' =>
                  item_separator enc ++ newline_indent enc (S level)
                    ++ encode_basestring (ensure_ascii enc) k' ++ key_separator
                    ++ iterencode enc (S level) y ++ items l'
              end) xs
        ++ newline_indent enc level ++ u "}"
  end.

(** [json.dumps(obj, ensure_ascii=..., indent=...)] *)
Definition dumps (enc : encoder) (v : pyval) : pystr := iterencode enc 0 v.

(** *** Decoder ([json.decoder], [json.scanner])

    The scanner works on the text that is left; an index of the Python code
    is the position where that text starts.  [None] stands for
    [JSONDecodeError]. *)

(** [WHITESPACE.match(s, end).end()] *)
Fixpoint skip_ws (s : pystr) : pystr :=
  match s with
  | c :: s' =>
      if (c =? 32) || (c =? 9) || (c =? 10) || (c =? 13) then skip_ws s' else s
  | [] => []
  end.

Definition hex_val (c : N) : option N :=
  if (48 <=? c) && (c <=? 57) then Some (c - 48)
  else if (97 <=? c) && (c <=? 102) then Some (c - 87)
  else if (65 <=? c) && (c <=? 70) then Some (c - 55)
  else None.

(** [_decode_uXXXX] on the four characters after [\u]. *)
Definition hex4 (a b c d : N) : option N :=
  match hex_val a, hex_val b, hex_val c, hex_val d with
  | Some x, Some y, Some z, Some w => Some (x * 4096 + y * 256 + z * 16 + w)
  | _, _, _, _ => None
  end.

(** [BACKSLASH] *)
Definition backslash (e : N) : option N :=
  if e =? 34 then Some 34
  else if e =? 92 then Some 92
  else if e =? 47 then Some 47
  else if e =? 98 then Some 8
  else if e =? 102 then Some 12
  else if e =? 110 then Some 10
  else if e =? 114 then Some 13
  else if e =? 116 then Some 9
  else None.

Definition is_high (c : N) : bool := (55296 <=? c) && (c <=? 56319).
Definition is_low (c : N) : bool := (56320 <=? c) && (c <=? 57343).

Definition push (c : N) (r : option (pystr * pystr)) : option (pystr * pystr) :=
  match r with
  | Some (str, rest) => Some (c :: str, rest)
  | None => None
  end.

(** [scanstring(s, end, strict=True)], called just after the opening
    quote: the decoded string and the text after the closing quote. *)
Fixpoint scanstring (s : pystr) : option (pystr * pystr) :=
  match s with
  | [] => None
  | c :: s' =>
      if c =? 34 then Some ([], s')
      else if c =? 92 then
        match s' with
        | [] => None
        | e :: s'' =>
            if e =? 117 then
              match s'' with
              | h1 :: h2 :: h3 :: h4 :: r =>
                  match hex4 h1 h2 h3 h4 with
                  | None => None
                  | Some uni =>
                      if is_high uni then
                        match r with
                        | b :: v :: r1 =>
                            if (b =? 92) && (v =? 117) then
                              match r1 with
                              | k1 :: k2 :: k3 :: k4 :: r2 =>
                                  match hex4 k1 k2 k3 k4 with
                                  | None => None
                                  | Some uni2 =>
                                      if is_low uni2
                                      then push (65536 + ((uni - 55296) * 1024
                                                          + (uni2 - 56320)))
                                                (scanstring r2)
                                      else push uni (scanstring r)
                                  end
                              | _ => None
                              end
                            else push uni (scanstring r)
                        | _ => push uni (scanstring r)
                        end
                      else push uni (scanstring r)
                  end
              | _ => None
              end
            else
              match backslash e with
              | Some ch => push ch (scanstring s'')
              | None => None
              end
        end
      else if c <? 32 then None
      else push c (scanstring s')
  end.

Definition is_digit (c : N) : bool := (48 <=? c) && (c <=? 57).

Fixpoint span_digits (s : pystr) : pystr * pystr :=
  match s with
  | c :: s' =>
      if is_digit c then let '(ds, r) := span_digits s' in (c :: ds, r)
      else ([], s)
  | [] => ([], [])
  end.

(** The integer group of [NUMBER_RE]: an optional minus sign, then a
    single zero or a digit string that does not start with zero. *)
Definition match_integer (s : pystr) : option (pystr * pystr) :=
  let '(sign, s1) :=
    match s with
    | c :: s' => if c =? 45 then ([45], s') else ([], s)
    | [] => ([], s)
    end in
  match s1 with
  | c :: s2 =>
      if c =? 48 then Some (sign ++ [48], s2)
      else if is_digit c then
        let '(ds, r) := span_digits s2 in Some (sign ++ c :: ds, r)
      else None
  | [] => None
  end.

(** The fraction group: a dot and at least one digit, or nothing. *)
Definition match_frac (s : pystr) : pystr * pystr :=
  match s with
  | c :: s' =>
      if c =? 46 then
        match span_digits s' with
        | ([], _) => ([], s)
        | (ds, r) => (46 :: ds, r)
        end
      else ([], s)
  | [] => ([], s)
  end.

(** The exponent group: [e] or [E], an optional sign and at least one
    digit, or nothing. *)
Definition match_exp (s : pystr) : pystr * pystr :=
  match s with
  | c :: s' =>
      if (c =? 101) || (c =? 69) then
        let '(sign, s1) :=
          match s' with
          | d :: s'' => if (d =? 45) || (d =? 43) then ([d], s'') else ([], s')
          | [] => ([], s')
          end in
        match span_digits s1 with
        | ([], _) => ([], s)
        | (ds, r) => (c :: sign ++ ds, r)
        end
      else ([], s)
  | [] => ([], s)
  end.

(** [int(lexeme)] on what [match_integer] accepts.  With a limit on the
    number of digits ([sys.get_int_max_str_digits()], 0 for none), a longer
    lexeme raises [ValueError]. *)
Definition parse_int (max_str_digits : nat) (lexeme : pystr) : option Z :=
  let value (l : pystr) : option Z :=
    if negb (max_str_digits =? 0)%nat && (max_str_digits <? length l)%nat
    then None
    else Some (fold_left (fun acc c => (acc * 10 + Z.of_N (c - 48))%Z) l 0%Z) in
  match lexeme with
  | c :: l => if c =? 45 then option_map Z.opp (value l) else value lexeme
  | [] => None
  end.

Inductive encoding :=
| UTF8 | UTF8_SIG | UTF16 | UTF16_BE | UTF16_LE | UTF32 | UTF32_BE | UTF32_LE.

Record decoder := {
  parse_float : pystr -> spec_float;            (* [float(lexeme)] *)
  max_str_digits : nat;                         (* 4300 unless reconfigured *)
  decode_wide : encoding -> bytes -> option pystr  (* the UTF-16/32 codecs *)
}.

Section Scanner.
Context (dec : decoder).

(** [scan_once], [JSONObject] and [JSONArray].  [fuel] bounds the number
    of values and members visited; [decode] gives more than the text can
    use ([decode_fuel] below).  The recursion limit of the interpreter, which
    turns very deep nesting into [RecursionError], is not modelled. *)
Fixpoint scan_once (fuel : nat) (s : pystr) : option (pyval * pystr) :=
  match fuel with
  | O => None
  | S fuel =>
      match s with
      | [] => None
      | c :: s' =>
          if c =? 34 then
            match scanstring s' with
            | Some (str, r) => Some (PStr str, r)
            | None => None
            end
          else if c =? 123 then
            match skip_ws s' with
            | c1 :: s1 =>
                if c1 =? 125 then Some (PDict [], s1)
                else if c1 =? 34 then object_loop fuel [] s1
                else None
            | [] => None
            end
          else if c =? 91 then
            match skip_ws s' with
            | c1 :: s1 =>
                if c1 =? 93 then Some (PList [], s1)
                else array_loop fuel [] (c1 :: s1)
            | [] => None
            end
          else if (c =? 110) && startswith s (u "null") then
            Some (PNone, drop 4 s)
          else if (c =? 116) && startswith s (u "true") then
            Some (PBool true, drop 4 s)
          else if (c =? 102) && startswith s (u "false") then
            Some (PBool false, drop 5 s)
          else
            match match_integer s with
            | Some (integer, r) =>
                let '(frac, r1) := match_frac r in
                let '(exp, r2) := match_exp r1 in
                match frac, exp with
                | [], [] =>
                    match parse_int (max_str_digits dec) integer with
                    | Some z => Some (PInt z, r2)
                    | None => None
                    end
                | _, _ =>
                    Some (PFloat (parse_float dec (integer ++ frac ++ exp)), r2)
                end
            | None =>
                if (c =? 78) && startswith s (u "NaN") then
                  Some (PFloat S754_nan, drop 3 s)
                else if (c =? 73) && startswith s (u "Infinity") then
                  Some (PFloat (S754_infinity false), drop 8 s)
                else if (c =? 45) && startswith s (u "-Infinity") then
                  Some (PFloat (S754_infinity true), drop 9 s)
                else None
            end
      end
  end
with object_loop (fuel : nat) (pairs : list (pystr * pyval)) (s : pystr)
  : option (pyval * pystr) :=
  match fuel with
  | O => None
  | S fuel =>
      match scanstring s with
      | None => None
      | Some (key, s1) =>
          match skip_ws s1 with
          | c :: s2 =>
              if c =? 58 then
                match scan_once fuel (skip_ws s2) with
                | None => None
                | Some (value, s3) =>
                    let pairs := pairs ++ [(key, value)] in
                    match skip_ws s3 with
                    | c' :: s4 =>
                        if c' =? 125 then
                          Some (PDict (fold_left (fun d kv => dict_set d kv.1 kv.2)
                                                 pairs []), s4)
                        else if c' =? 44 then
                          match skip_ws s4 with
                          | q :: s5 =>
                              if q =? 34 then object_loop fuel pairs s5 else None
                          | [] => None
                          end
                        else None
                    | [] => None
                    end
                end
              else None
          | [] => None
          end
      end
  end
with array_loop (fuel : nat) (values : list pyval) (s : pystr)
  : option (pyval * pystr) :=
  match fuel with
  | O => None
  | S fuel =>
      match scan_once fuel s with
      | None => None
      | Some (value, s1) =>
          let values := values ++ [value] in
          match skip_ws s1 with
          | c :: s2 =>
              if c =? 93 then Some (PList values, s2)
              else if c =? 44 then array_loop fuel values (skip_ws s2)
              else None
          | [] => None
          end
      end
  end.

(** [JSONDecoder.decode]: one value, white space around it, nothing else. *)
Definition decode (s : pystr) : option pyval :=
  match scan_once (S (length s)) (skip_ws s) with
  | Some (obj, r) => match skip_ws r with [] => Some obj | _ => None end
  | None => None
  end.

(** [detect_encoding] *)
Definition detect_encoding (b : bytes) : encoding :=
  match b with
  | 0 :: 0 :: 254 :: 255 :: _ => UTF32
  | 255 :: 254 :: 0 :: 0 :: _ => UTF32
  | 254 :: 255 :: _ => UTF16
  | 255 :: 254 :: _ => UTF16
  | 239 :: 187 :: 191 :: _ => UTF8_SIG
  | b0 :: b1 :: b2 :: b3 :: _ =>
      if b0 =? 0 then (if b1 =? 0 then UTF32_BE else UTF16_BE)
      else if b1 =? 0 then
        (if (b2 =? 0) && (b3 =? 0) then UTF32_LE else UTF16_LE)
      else UTF8
  | [b0; b1] =>
      if b0 =? 0 then UTF16_BE else if b1 =? 0 then UTF16_LE else UTF8
  | _ => UTF8
  end.

(** [b.decode(detect_encoding(b), 'surrogatepass')] *)
Definition decode_bytes (b : bytes) : option pystr :=
  match detect_encoding b with
  | UTF8 => Utf8.decode b
  | UTF8_SIG => Utf8.decode (drop 3 b)
  | e => decode_wide dec e b
  end.

(** [json.loads(b)] for [bytes]. *)
Definition loads (b : bytes) : option pyval :=
  match decode_bytes b with
  | Some s => decode s
  | None => None
  end.

End Scanner.

End Json.

(** ** The parse tree of BeautifulSoup

    What [BeautifulSoup(content, 'html.parser')] builds: text nodes and
    tags with their attributes and contents.  Comments and the like are
    neither matched by [find_all] nor read by [get_text], so they are not
    kept. *)

Module Soup.

Inductive node :=
| Text (s : pystr)
| Tag (name : pystr) (attrs : list (pystr * pystr)) (contents : list node).

(** [tag.descendants]: every node below, in document order. *)
Fixpoint below (n : node) : list node :=
  match n with
  | Text _ => []
  | Tag _ _ cs => flat_map (fun c => c :: below c) cs
  end.

Definition descendants (contents : list node) : list node :=
  flat_map (fun c => c :: below c) contents.

(** [tag.get(key)] *)
Fixpoint attr_get (attrs : list (pystr * pystr)) (key : pystr) : option pystr :=
  match attrs with
  | [] => None
  | (k, v) :: attrs' => if str_eqb k key then Some v else attr_get attrs' key
  end.

Definition get (n : node) (key : pystr) : option pystr :=
  match n with
  | Text _ => None
  | Tag _ attrs _ => attr_get attrs key
  end.

Definition contents_of (n : node) : list node :=
  match n with
  | Text _ => []
  | Tag _ _ cs => cs
  end.

Definition is_tag_named (name : pystr) (n : node) : bool :=
  match n with
  | Text _ => false
  | Tag name' _ _ => str_eqb name' name
  end.

(** [soup.find_all(name)] *)
Definition find_all (contents : list node) (name : pystr) : list node :=
  List.filter (is_tag_named name) (descendants contents).

(** [soup.find_all(name, href=f)]: [f] is given [tag.get('href')]. *)
Definition find_all_href (contents : list node) (name : pystr)
    (f : option pystr -> bool) : list node :=
  List.filter (fun n => f (get n (u "href"))) (find_all contents name).

(** [soup.find(name)] *)
Definition find (contents : list node) (name : pystr) : option node :=
  head (find_all contents name).

Definition text_of (n : node) : option pystr :=
  match n with
  | Text s => Some s
  | Tag _ _ _ => None
  end.

(** [tag.get_text(strip=True)]: the stripped strings below the tag, the
    empty ones dropped, joined without a separator. *)
Definition get_text_strip (n : node) : pystr :=
  join [] (List.filter nonempty (map strip (omap text_of (below n)))).

End Soup.

(** ** Python sets

    [fetch_live_articles] collects the links in a [set] and then iterates
    over it.  The order of that iteration is the order of the hash table,
    which depends on the hashes of the strings (randomised per process), not
    on the order of insertion: the embedding takes any implementation that
    keeps one copy of every element. *)

Class PySet := {
  pyset : Type;
  set_new : pyset;                          (* [set()] *)
  set_add : pystr -> pyset -> pyset;        (* [s.add(x)] *)
  set_iter : pyset -> list pystr;           (* [for x in s] *)
  set_iter_new : set_iter set_new = [];
  set_iter_add_old : forall x s,
    x ∈ set_iter s -> set_iter (set_add x s) = set_iter s;
  set_iter_add_new : forall x s,
    x ∉ set_iter s -> set_iter (set_add x s) ≡ₚ x :: set_iter s
}.

(** ** The environment and the world *)

Import Json Soup.

(** A raised exception: its class and [str(e)]. *)
Record exn := Exn { exn_class : string; exn_msg : pystr }.

(** What [requests.get] does: it raises, or it returns a response. *)
Inductive http_result :=
| RequestFailed (e : exn)
| Response (status : Z) (reason : pystr) (content : bytes).

(** The external collaborators of the functions. *)
Record env := {
  BLOB_CONNECTION_STRING : option pystr;        (* [os.getenv(...)] *)
  connection_string_ok : pystr -> bool;
  requests_get : pystr -> http_result;
  html_parser : bytes -> list node;
  storage_fault : nat -> option exn;  (* the n-th call to the service raises *)
  textblob_sentiment : pystr -> exn + (spec_float * spec_float);
  py_float_repr : spec_float -> pystr;
  json_decoder : decoder
}.

Inductive level := INFO | WARNING | ERROR.

(** The world the functions act on.  The log keeps every message but the
    ones that read the clock (the start, end and duration of a run). *)
Record world := World {
  containers : gmap (list N) (gmap (list N) (list N));
  storage_calls : nat;
  requests_made : list (list N);
  log : list (level * list N)
}.

Definition set_containers (c : gmap (list N) (gmap (list N) (list N)))
    (w : world) : world :=
  World c (storage_calls w) (requests_made w) (log w).

Definition tick (w : world) : world :=
  World (containers w) (S (storage_calls w)) (requests_made w) (log w).

Definition add_request (url : pystr) (w : world) : world :=
  World (containers w) (storage_calls w) (requests_made w ++ [url]) (log w).

Definition logging (l : level) (msg : pystr) (w : world) : world :=
  World (containers w) (storage_calls w) (requests_made w) (log w ++ [(l, msg)]).

(** A computation either returns or raises, and leaves a world. *)
Definition M (A : Type) : Type := world -> (exn + A) * world.

Definition ret {A} (a : A) : M A := fun w => (inr a, w).
Definition raise {A} (e : exn) : M A := fun w => (inl e, w).
Definition bind {A B} (m : M A) (k : A -> M B) : M B :=
  fun w => match m w with
           | (inr a, w') => k a w'
           | (inl e, w') => (inl e, w')
           end.

(** [try: m except Exception as e: h e] *)
Definition try_except {A} (m : M A) (h : exn -> M A) : M A :=
  fun w => match m w with
           | (inr a, w') => (inr a, w')
           | (inl e, w') => h e w'
           end.

Definition do (f : world -> world) : M unit := fun w => (inr tt, f w).

Notation "'let!' x ':=' m 'in' k" := (bind m (fun x => k))
  (at level 10, x name, m at level 200, k at level 200).
Notation "m ;; k" := (bind m (fun _ => k))
  (at level 100, right associativity).

(** [for x in l: body x] *)
Fixpoint for_each {A} (l : list A) (body : A -> M unit) : M unit :=
  match l with
  | [] => ret tt
  | x :: l' => body x ;; for_each l' body
  end.

Section Functions.
Context (E : env) {PS : PySet}.

(** *** The storage client *)

(** [BlobServiceClient.from_connection_string(BLOB_CONNECTION_STRING)] *)
Definition from_connection_string : M unit :=
  match BLOB_CONNECTION_STRING E with
  | None =>
      raise (Exn "AttributeError"
                 (u "'NoneType' object has no attribute 'rstrip'"))
  | Some c =>
      if connection_string_ok E c then ret tt
      else raise (Exn "ValueError"
                      (u "Connection string is either blank or malformed."))
  end.

(** One round trip to the storage service. *)
Definition service_call : M unit :=
  fun w => match storage_fault E (storage_calls w) with
           | Some e => (inl e, tick w)
           | None => (inr tt, tick w)
           end.

(** [container_client.exists()] *)
Definition container_exists (container : pystr) : M bool :=
  service_call ;;
  fun w => (inr (bool_decide (is_Some (containers w !! container))), w).

(** [container_client.create_container()] *)
Definition create_container (container : pystr) : M unit :=
  service_call ;;
  fun w => match containers w !! container with
           | Some _ =>
               (inl (Exn "ResourceExistsError"
                         (u "The specified container already exists.")), w)
           | None => (inr tt, set_containers (<[container := ∅]> (containers w)) w)
           end.

(** [blob_client.upload_blob(data, overwrite=True)] for a [str]: the text
    is encoded before anything is sent. *)
Definition upload_blob (container blob_name data : pystr) : M unit :=
  match Utf8.encode data with
  | None =>
      raise (Exn "UnicodeEncodeError"
                 (u "'utf-8' codec can't encode character: surrogates not allowed"))
  | Some octets =>
      service_call ;;
      fun w => match containers w !! container with
               | None =>
                   (inl (Exn "ResourceNotFoundError"
                             (u "The specified container does not exist.")), w)
               | Some blobs =>
                   (inr tt,
                    set_containers
                      (<[container := <[blob_name := octets]> blobs]> (containers w))
                      w)
               end
  end.

(** *** Function 1: the timer trigger *)

Definition pretty_encoder : encoder :=
  {| ensure_ascii := false; indent := Some 4%nat; float_repr := py_float_repr E |}.

Definition default_encoder : encoder :=
  {| ensure_ascii := true; indent := None; float_repr := py_float_repr E |}.

(** [save_to_blob(data, blob_name)] *)
Definition save_to_blob (data : pyval) (blob_name : pystr) : M unit :=
  try_except
    (from_connection_string ;;
     let! present := container_exists (u "articles-data") in
     (if negb present then create_container (u "articles-data") else ret tt) ;;
     let blob_content := dumps pretty_encoder data in
     upload_blob (u "articles-data") blob_name blob_content ;;
     do (logging INFO (u "Uploaded " ++ blob_name
                       ++ u " to Blob Storage in container articles-data.")))
    (fun e => do (logging ERROR (u "Error uploading to Blob Storage: " ++ exn_msg e))).

(** [requests.get(url, headers=headers)] followed by
    [response.raise_for_status()]: the content, or the exception. *)
Definition fetch_outcome (url : pystr) : exn + bytes :=
  match requests_get E url with
  | RequestFailed e => inl e
  | Response status reason content =>
      if (400 <=? status)%Z && (status <? 500)%Z then
        inl (Exn "HTTPError" (str_of_Z status ++ u " Client Error: " ++ reason
                              ++ u " for url: " ++ url))
      else if (500 <=? status)%Z && (status <? 600)%Z then
        inl (Exn "HTTPError" (str_of_Z status ++ u " Server Error: " ++ reason
                              ++ u " for url: " ++ url))
      else inr content
  end.

Definition fetch (url : pystr) : M bytes :=
  fun w => (fetch_outcome url, add_request url w).

(** The title and the content [process_article] extracts from a page. *)
Definition extract_title (soup : list node) : pystr :=
  match find soup (u "h1") with
  | Some title_tag => get_text_strip title_tag
  | None => u "No Title Found"
  end.

Definition extract_content (soup : list node) : pystr :=
  let paragraphs :=
    match find soup (u "article") with
    | Some article_body => find_all (contents_of article_body) (u "p")
    | None => []
    end in
  join (u " ") (map get_text_strip paragraphs).

Definition article_record (title content url : pystr) : pyval :=
  PDict [(u "title", PStr title); (u "content", PStr content); (u "url", PStr url)].

Definition blob_name_of (title : pystr) : pystr :=
  u "article-" ++ replace title (u " ") (u "_") ++ u ".json".

(** [process_article(url)] *)
Definition process_article (url : pystr) : M unit :=
  let! response :=
    try_except
      (let! response := fetch url in ret (Some response))
      (fun e =>
         do (logging ERROR (u "Error fetching article " ++ url ++ u ": "
                            ++ exn_msg e)) ;;
         ret None) in
    match response with
    | None => ret tt
    | Some content_bytes =>
        let soup := html_parser E content_bytes in
        let title := extract_title soup in
        let content := extract_content soup in
        if negb (nonempty content) then
          do (logging WARNING (u "No content found for article " ++ url))
        else
          let article_data := article_record title content url in
          let blob_name := blob_name_of title in
          save_to_blob article_data blob_name
    end.

(** The test [find_all] applies to [href]:
    [lambda href: href and href.startswith('/news/articles')]. *)
Definition is_article_href (href : option pystr) : bool :=
  match href with
  | Some h => nonempty h && startswith h (u "/news/articles")
  | None => false
  end.

Definition full_url (href : pystr) : pystr := u "https://www.bbc.com" ++ href.

(** The loop that fills [article_links]; [article['href']] raises
    [KeyError] on a tag without that attribute. *)
Fixpoint collect_links (articles : list node) (article_links : pyset)
  : exn + pyset :=
  match articles with
  | [] => inr article_links
  | article :: rest =>
      match get article (u "href") with
      | None => inl (Exn "KeyError" (u "'href'"))
      | Some href => collect_links rest (set_add (full_url href) article_links)
      end
  end.

(** The links [fetch_live_articles] goes on to process, in the order it
    processes them. *)
Definition discover (soup : list node) : exn + list (list N) :=
  let articles := find_all_href soup (u "a") is_article_href in
  match collect_links (take 10 articles) set_new with
  | inl e => inl e
  | inr article_links => inr (set_iter article_links)
  end.

Definition homepage : pystr := u "https://www.bbc.com/news".

(** [fetch_live_articles()] *)
Definition fetch_live_articles : M unit :=
  let! response :=
    try_except
      (let! response := fetch homepage in ret (Some response))
      (fun e =>
         do (logging ERROR (u "Error fetching BBC News homepage: " ++ exn_msg e)) ;;
         ret None) in
    match response with
    | None => ret tt
    | Some content_bytes =>
        let soup := html_parser E content_bytes in
        match discover soup with
        | inl e => raise e
        | inr links => for_each links process_article
        end
    end.

(** [timer_trigger(myTimer)] *)
Definition timer_trigger (past_due : bool) : M unit :=
  (if past_due then do (logging INFO (u "The timer is past due!")) else ret tt) ;;
  fetch_live_articles.

(** *** Function 2: the blob trigger *)

(** [save_to_blob_with_sentiment(data, blob_name)] *)
Definition save_to_blob_with_sentiment (data : pyval) (blob_name : pystr) : M unit :=
  try_except
    (from_connection_string ;;
     let! present := container_exists (u "articles-sentiment") in
     (if negb present then create_container (u "articles-sentiment") else ret tt) ;;
     let blob_content := dumps pretty_encoder data in
     upload_blob (u "articles-sentiment") blob_name blob_content ;;
     do (logging INFO (u "Uploaded " ++ blob_name
                       ++ u " to Blob Storage in container articles-sentiment.")))
    (fun e => do (logging ERROR (u "Error uploading sentiment data to Blob Storage: "
                                 ++ exn_msg e))).

(** ["positive" if polarity > 0 else "negative"] *)
Definition overall (polarity : spec_float) : pystr :=
  if SFltb (S754_zero false) polarity then u "positive" else u "negative".

Definition sentiment_block (polarity subjectivity : spec_float) : pyval :=
  PDict [(u "polarity", PFloat polarity);
         (u "subjectivity", PFloat subjectivity);
         (u "overall", PStr (overall polarity))].

(** The record the blob trigger goes on to save, from the parsed blob: the
    body of the [try] up to the call of [save_to_blob_with_sentiment].
    [inr None] is the early [return] on a missing content. *)
Definition enrich (article_data : pyval) : exn + option pyval :=
  match article_data with
  | PDict d =>
      let content :=
        match dict_get d (u "content") with Some c => c | None => PStr [] end in
      if negb (truthy content) then inr None
      else
        match content with
        | PStr text =>
            match textblob_sentiment E text with
            | inl e => inl e
            | inr (polarity, subjectivity) =>
                inr (Some (PDict (dict_set d (u "sentiment")
                                    (sentiment_block polarity subjectivity))))
            end
        | _ =>
            inl (Exn "TypeError"
                     (u "The `text` argument passed to `__init__(text)` must be a string"))
        end
  | _ => inl (Exn "AttributeError" (u "object has no attribute 'get'"))
  end.

(** The first message of the blob trigger. *)
Definition blob_received (name : pystr) (length : option Z) : pystr :=
  u "Python blob trigger function processed blob" ++ [10]
    ++ u "Name: " ++ name ++ [10]
    ++ u "Blob Size: "
    ++ match length with Some n => str_of_Z n | None => u "None" end
    ++ u " bytes".

(** [BlobTrigger(myblob)], with [myblob.name], [myblob.length] and what
    [myblob.read()] returns.  The text of the decoder's exception, which
    names the position of the error, is replaced by a fixed one. *)
Definition BlobTrigger (name : pystr) (length : option Z) (blob_content : bytes)
  : M unit :=
  do (logging INFO (blob_received name length)) ;;
  try_except
    (match loads (json_decoder E) blob_content with
     | None => raise (Exn "JSONDecodeError" (u "Expecting value"))
     | Some article_data =>
         match enrich article_data with
         | inl e => raise e
         | inr None => do (logging WARNING (u "No content found in the blob data."))
         | inr (Some enriched) =>
             save_to_blob_with_sentiment enriched (u "sentiment-" ++ name)
         end
     end)
    (fun e => do (logging ERROR (u "Error processing blob " ++ name ++ u ": "
                                 ++ exn_msg e))).

(** *** Function 3: the fake articles *)

Record HttpResponse := { body : list N; status_code : Z }.

Definition fake_article (i : nat) : pyval :=
  PDict [(u "title", PStr (u "Fake Article " ++ str_of_Z (Z.of_nat i + 1)));
         (u "content",
          PStr (u "This is a generated fake article for scalability testing purposes."));
         (u "url", PStr (u "https://fakeurl.com/article-" ++ str_of_Z (Z.of_nat i + 1)))].

Definition fake_blob_name (i : nat) : pystr :=
  u "fake-article-" ++ str_of_Z (Z.of_nat i + 1) ++ u ".json".

Definition count : nat := 10.

(** The body of the [try] in [GenerateFakeArticles]. *)
Definition generate_and_upload : M HttpResponse :=
  from_connection_string ;;
  let container_name := u "articles-data" in
  let! present := container_exists container_name in
  (if negb present then create_container container_name else ret tt) ;;
  for_each (seq 0 count)
    (fun i =>
       upload_blob container_name (fake_blob_name i)
                   (dumps default_encoder (fake_article i))) ;;
  do (logging INFO (u "Generated and uploaded " ++ str_of_Z (Z.of_nat count)
                    ++ u " fake articles.")) ;;
  ret {| body := u "Successfully generated and uploaded "
                 ++ str_of_Z (Z.of_nat count) ++ u " fake articles.";
         status_code := 200 |}.

(** [GenerateFakeArticles(req)] *)
Definition GenerateFakeArticles : M HttpResponse :=
  do (logging INFO (u "Python HTTP trigger function processed a request.")) ;;
  try_except generate_and_upload
    (fun e =>
       do (logging ERROR (u "Error generating fake articles: " ++ exn_msg e)) ;;
       ret {| body := u "An error occurred: " ++ exn_msg e; status_code := 500 |}).

End Functions.

(** ** Reference notions used in the statements *)

(** The distinct elements of a list, each at its first occurrence. *)
Fixpoint first_seen (l : list (list N)) : list (list N) :=
  match l with
  | [] => []
  | x :: l' => x :: List.filter (fun y => negb (str_eqb y x)) (first_seen l')
  end.

(** The absolute URL an anchor of the homepage stands for. *)
Definition anchor_url (a : node) : list N :=
  full_url (default [] (get a (u "href"))).

(** The URLs of the anchors whose [href] starts with [/news/articles], in
    document order, repetitions included. *)
Definition article_urls (soup : list node) : list (list N) :=
  map anchor_url (find_all_href soup (u "a") is_article_href).

Definition article_prefix : list N := u "https://www.bbc.com/news/articles".

(** The blobs of a container, none if the container does not exist. *)
Definition blobs_of (w : world) (container : list N) : gmap (list N) (list N) :=
  default ∅ (containers w !! container).

(** A configured connection string and a storage service that answers
    every call. *)
Definition healthy (E : env) : Prop :=
  (exists c, BLOB_CONNECTION_STRING E = Some c /\ connection_string_ok E c = true)
  /\ forall n, storage_fault E n = None.

(** What [save_to_blob] and [save_to_blob_with_sentiment] have in common:
    they differ in the container and in the two messages. *)
Definition save_with (E : env) (container : list N)
    (uploaded : list N -> list N) (failed : list N)
    (data : pyval) (blob_name : list N) : M unit :=
  try_except
    (from_connection_string E ;;
     let! present := container_exists E container in
     (if negb present then create_container E container else ret tt) ;;
     let blob_content := dumps (pretty_encoder E) data in
     upload_blob E container blob_name blob_content ;;
     do (logging INFO (uploaded blob_name)))
    (fun e => do (logging ERROR (failed ++ exn_msg e))).

(** The octets stored for the i-th fake article. *)
Definition fake_blob (E : env) (i : nat) : list N :=
  default [] (Utf8.encode (dumps (default_encoder E) (fake_article i))).

(** The content template of a fake article, for the number shown in it. *)
Definition fake_template (number : string) : list N :=
  u "{" ++ [34] ++ u "title" ++ [34] ++ u ": " ++ [34] ++ u "Fake Article "
    ++ u number ++ [34] ++ u ", " ++ [34] ++ u "content" ++ [34] ++ u ": " ++ [34]
    ++ u "This is a generated fake article for scalability testing purposes."
    ++ [34] ++ u ", " ++ [34] ++ u "url" ++ [34] ++ u ": " ++ [34]
    ++ u "https://fakeurl.com/article-" ++ u number ++ [34] ++ u "}".

(** The ten objects of the seed data: name and content. *)
Definition fake_numbers : list string :=
  ["1"; "2"; "3"; "4"; "5"; "6"; "7"; "8"; "9"; "10"].

Definition fake_objects : list (list N * list N) :=
  map (fun n => (u "fake-article-" ++ u n ++ u ".json", fake_template n)) fake_numbers.

(** The text of a record of three strings, as [dumps] lays it out. *)
Definition record_text (title content url rest : list N) : list N :=
  123 :: 10 :: 32 :: 32 :: 32 :: 32 :: 34 :: flat_map escape_char (u "title")
    ++ 34 :: 58 :: 32 :: 34 :: flat_map escape_char title
    ++ 34 :: 44 :: 10 :: 32 :: 32 :: 32 :: 32 :: 34 :: flat_map escape_char (u "content")
    ++ 34 :: 58 :: 32 :: 34 :: flat_map escape_char content
    ++ 34 :: 44 :: 10 :: 32 :: 32 :: 32 :: 32 :: 34 :: flat_map escape_char (u "url")
    ++ 34 :: 58 :: 32 :: 34 :: flat_map escape_char url
    ++ 34 :: 10 :: 125 :: rest.

(** A Unicode scalar value: a code point that is not a surrogate. *)
Definition is_scalar (c : N) : bool := (c <? 1114112) && negb (Utf8.is_surrogate c).

(** The code that makes sure the container exists, as the three functions
    have it. *)
Definition ensure_container (E : env) (container : list N) : M unit :=
  let! present := container_exists E container in
  (if negb present then create_container E container else ret tt).

(** * Properties *)

(** ** Three implementations of the set *)

(** A table that happens to iterate in insertion order. *)
Definition add_last (x : pystr) (s : list (list N)) : list (list N) :=
  if bool_decide (x ∈ s) then s else s ++ [x].

Lemma add_last_old x s : x ∈ s -> add_last x s = s.
Proof. intros Hx. unfold add_last. by rewrite bool_decide_eq_true_2. Qed.

Lemma add_last_new x s : x ∉ s -> add_last x s ≡ₚ x :: s.
Proof.
  intros Hx. unfold add_last. rewrite bool_decide_eq_false_2 by done.
  by rewrite Permutation_app_comm.
Qed.

Definition insertion_ordered : PySet := {|
  pyset := list (list N);
  set_new := [];
  set_add := add_last;
  set_iter s := s;
  set_iter_new := eq_refl;
  set_iter_add_old := add_last_old;
  set_iter_add_new := add_last_new
|}.

(** A table that happens to iterate newest first. *)
Definition add_first (x : pystr) (s : list (list N)) : list (list N) :=
  if bool_decide (x ∈ s) then s else x :: s.

Lemma add_first_old x s : x ∈ s -> add_first x s = s.
Proof. intros Hx. unfold add_first. by rewrite bool_decide_eq_true_2. Qed.

Lemma add_first_new x s : x ∉ s -> add_first x s ≡ₚ x :: s.
Proof. intros Hx. unfold add_first. by rewrite bool_decide_eq_false_2. Qed.

Definition newest_first : PySet := {|
  pyset := list (list N);
  set_new := [];
  set_add := add_first;
  set_iter s := s;
  set_iter_new := eq_refl;
  set_iter_add_old := add_first_old;
  set_iter_add_new := add_first_new
|}.

(** stdpp's [gset], iterated in the order of its trie. *)
Lemma elements_add_old (x : list N) (s : gset (list N)) :
  x ∈ elements s -> elements ({[x]} ∪ s) = elements s.
Proof.
  intros Hx%elem_of_elements. f_equal.
  by apply subseteq_union_1_L, singleton_subseteq_l.
Qed.

Lemma elements_add_new (x : list N) (s : gset (list N)) :
  x ∉ elements s -> elements ({[x]} ∪ s) ≡ₚ x :: elements s.
Proof. intros Hx. apply elements_union_singleton. by rewrite <- elem_of_elements. Qed.

Definition trie_ordered : PySet := {|
  pyset := gset (list N);
  set_new := ∅;
  set_add x s := {[x]} ∪ s;
  set_iter s := elements s;
  set_iter_new := elements_empty;
  set_iter_add_old := elements_add_old;
  set_iter_add_new := elements_add_new
|}.

(** ** Strings *)

Lemma str_eqb_eq a b : str_eqb a b = true <-> a = b.
Proof. unfold str_eqb. by rewrite bool_decide_eq_true. Qed.

Lemma str_eqb_refl a : str_eqb a a = true.
Proof. by apply str_eqb_eq. Qed.

Lemma str_eqb_neq a b : a <> b -> str_eqb a b = false.
Proof. intros H. unfold str_eqb. by rewrite bool_decide_eq_false. Qed.


Lemma startswith_app_l p q s :
  startswith s q = true -> startswith (p ++ s) (p ++ q) = true.
Proof. intros H. induction p as [|c p IH]; simpl; [done|]. by rewrite N.eqb_refl, IH. Qed.

(** ** The JSON round trip *)

Lemma scanstring_literal c rest :
  32 <= c -> c <> 34 -> c <> 92 -> scanstring (c :: rest) = push c (scanstring rest).
Proof.
  intros H1 H2 H3. simpl.
  rewrite (proj2 (N.eqb_neq c 34)), (proj2 (N.eqb_neq c 92)) by done.
  by rewrite (proj2 (N.ltb_ge c 32)).
Qed.

Lemma escape_char_literal c :
  32 <= c -> c <> 34 -> c <> 92 -> escape_char c = [c].
Proof.
  intros H1 H2 H3. unfold escape_char, escape_dct.
  rewrite (proj2 (N.eqb_neq c 92)), (proj2 (N.eqb_neq c 34)) by done.
  rewrite !(proj2 (N.eqb_neq c _)) by lia.
  by rewrite (proj2 (N.ltb_ge c 32)).
Qed.

Lemma scanstring_escape_char c rest :
  scanstring (escape_char c ++ rest) = push c (scanstring rest).
Proof.
  destruct (N.lt_ge_cases c 32) as [Hlt|Hge].
  - assert (exists n, (n < 32)%nat /\ c = N.of_nat n) as (n & Hn & ->).
    { exists (N.to_nat c). lia. }
    do 32 (destruct n as [|n]; [reflexivity|]). lia.
  - destruct (N.eq_dec c 34) as [->|H34]; [reflexivity|].
    destruct (N.eq_dec c 92) as [->|H92]; [reflexivity|].
    rewrite escape_char_literal by done. by apply scanstring_literal.
Qed.

Lemma scanstring_escaped s rest :
  scanstring (flat_map escape_char s ++ 34 :: rest) = Some (s, rest).
Proof.
  induction s as [|c s IH]; simpl; [done|].
  by rewrite <- app_assoc, scanstring_escape_char, IH.
Qed.

Lemma scanstring_basestring s rest :
  scanstring (tl (encode_basestring false s) ++ rest) = Some (s, rest).
Proof.
  unfold encode_basestring. simpl. rewrite <- app_assoc. apply scanstring_escaped.
Qed.

Ltac eval_literals :=
  repeat match goal with
         | |- context [u ?s] =>
             let v := eval vm_compute in (u s) in change (u s) with v
         end.

Section RoundTrip.
Context (E : env).

Lemma dumps_article_record title content url :
  dumps (pretty_encoder E) (article_record title content url)
  = u "{" ++ [10] ++ u "    " ++ [34] ++ u "title" ++ [34] ++ u ": " ++ [34]
      ++ flat_map escape_char title
      ++ [34] ++ u "," ++ [10] ++ u "    " ++ [34] ++ u "content" ++ [34] ++ u ": " ++ [34]
      ++ flat_map escape_char content
      ++ [34] ++ u "," ++ [10] ++ u "    " ++ [34] ++ u "url" ++ [34] ++ u ": " ++ [34]
      ++ flat_map escape_char url
      ++ [34; 10] ++ u "}".
Proof.
  unfold dumps, article_record, iterencode, encode_basestring, newline_indent,
    item_separator, key_separator, pretty_encoder.
  cbn [indent ensure_ascii].
  eval_literals. simpl.
  repeat (progress (rewrite <- ?app_assoc; cbn [app])). reflexivity.
Qed.

Section Scan.
Context (dec : decoder).

Lemma scan_once_string fuel s rest :
  scan_once dec (S fuel) (34 :: flat_map escape_char s ++ 34 :: rest)
  = Some (PStr s, rest).
Proof. simpl. by rewrite scanstring_escaped. Qed.

Lemma object_loop_more fuel pairs key v rest :
  object_loop dec (S (S fuel)) pairs
    (flat_map escape_char key
       ++ 34 :: 58 :: 32 :: 34 :: flat_map escape_char v
       ++ 34 :: 44 :: 10 :: 32 :: 32 :: 32 :: 32 :: 34 :: rest)
  = object_loop dec (S fuel) (pairs ++ [(key, PStr v)]) rest.
Proof.
  cbn [object_loop]. rewrite scanstring_escaped.
  cbn [skip_ws N.eqb Pos.eqb orb]. rewrite scan_once_string.
  reflexivity.
Qed.

Lemma object_loop_last fuel pairs key v rest :
  object_loop dec (S (S fuel)) pairs
    (flat_map escape_char key
       ++ 34 :: 58 :: 32 :: 34 :: flat_map escape_char v
       ++ 34 :: 10 :: 125 :: rest)
  = Some (PDict (fold_left (fun d kv => dict_set d kv.1 kv.2)
                           (pairs ++ [(key, PStr v)]) []), rest).
Proof.
  cbn [object_loop]. rewrite scanstring_escaped.
  cbn [skip_ws N.eqb Pos.eqb orb]. rewrite scan_once_string.
  reflexivity.
Qed.

Lemma scan_once_record fuel title content url rest :
  scan_once dec (S (S (S (S (S fuel))))) (record_text title content url rest)
  = Some (article_record title content url, rest).
Proof.
  unfold record_text. cbn [scan_once]. cbn [skip_ws N.eqb Pos.eqb orb].
  rewrite !object_loop_more, object_loop_last. reflexivity.
Qed.

End Scan.

Lemma dumps_record_text title content url :
  dumps (pretty_encoder E) (article_record title content url)
  = record_text title content url [].
Proof.
  rewrite dumps_article_record. unfold record_text.
  change (u "title") with (flat_map escape_char (u "title")).
  change (u "content") with (flat_map escape_char (u "content")).
  change (u "url") with (flat_map escape_char (u "url")).
  change (u "{") with [123]. change (u "    ") with [32; 32; 32; 32].
  change (u ": ") with [58; 32]. change (u ",") with [44]. change (u "}") with [125].
  repeat (progress (rewrite <- ?app_assoc; cbn [app])). reflexivity.
Qed.

Lemma decode_article_record dec title content url :
  decode dec (dumps (pretty_encoder E) (article_record title content url))
  = Some (article_record title content url).
Proof.
  rewrite dumps_record_text. unfold decode.
  change (skip_ws (record_text title content url []))
    with (record_text title content url []).
  unfold record_text at 1. cbn [length].
  rewrite (scan_once_record dec _ title content url []). reflexivity.
Qed.
End RoundTrip.

(** ** UTF-8 *)

Ltac divmod_lia := zify; Z.to_euclidean_division_equations; lia.

Ltac decide_test :=
  match goal with
  | |- context [?a <? ?b] =>
      first [ rewrite (proj2 (N.ltb_lt a b)) by divmod_lia
            | rewrite (proj2 (N.ltb_ge a b)) by divmod_lia ]
  | |- context [?a <=? ?b] =>
      first [ rewrite (proj2 (N.leb_le a b)) by divmod_lia
            | rewrite (proj2 (N.leb_gt a b)) by divmod_lia ]
  end.

Lemma decode_encode_cp c octets rest :
  Utf8.encode_cp c = Some octets ->
  Utf8.decode (octets ++ rest) = option_map (cons c) (Utf8.decode rest).
Proof.
  unfold Utf8.encode_cp, Utf8.is_surrogate.
  destruct (c <? 128) eqn:H1.
  { intros [= <-]. simpl. by rewrite H1. }
  destruct (c <? 2048) eqn:H2.
  { intros [= <-]. apply N.ltb_ge in H1. apply N.ltb_lt in H2.
    cbn [app Utf8.decode]. unfold Utf8.is_cont.
    repeat decide_test. cbn [andb]. do 2 f_equal. divmod_lia. }
  destruct (c <? 65536) eqn:H3.
  { destruct ((55296 <=? c) && (c <=? 57343)) eqn:Hs; [done|].
    intros [= <-]. apply N.ltb_ge in H2. apply N.ltb_lt in H3.
    cbn [app Utf8.decode]. unfold Utf8.is_cont.
    repeat decide_test. cbn [andb]. do 2 f_equal. divmod_lia. }
  destruct (c <? 1114112) eqn:H4; [|done].
  intros [= <-]. apply N.ltb_ge in H3. apply N.ltb_lt in H4.
  cbn [app Utf8.decode]. unfold Utf8.is_cont.
  repeat decide_test. cbn [andb]. do 2 f_equal. divmod_lia.
Qed.

Lemma decode_encode s octets :
  Utf8.encode s = Some octets -> Utf8.decode octets = Some s.
Proof.
  revert octets. induction s as [|c s IH]; intros octets; simpl.
  { by intros [= <-]. }
  destruct (Utf8.encode_cp c) as [b|] eqn:Hc; [|done].
  destruct (Utf8.encode s) as [bs|]; [|done].
  intros [= <-]. rewrite (decode_encode_cp c b bs Hc), (IH bs eq_refl). done.
Qed.

Lemma encode_app a b :
  Utf8.encode (a ++ b)
  = match Utf8.encode a, Utf8.encode b with
    | Some x, Some y => Some (x ++ y)
    | _, _ => None
    end.
Proof.
  induction a as [|c a IH]; simpl.
  - by destruct (Utf8.encode b).
  - rewrite IH. destruct (Utf8.encode_cp c), (Utf8.encode a), (Utf8.encode b);
      try done. by rewrite app_assoc.
Qed.

Lemma encode_cp_scalar c : is_scalar c = true -> is_Some (Utf8.encode_cp c).
Proof.
  unfold is_scalar, Utf8.encode_cp. intros [H1 H2]%andb_true_iff.
  apply negb_true_iff in H2. rewrite H1, H2.
  repeat case_match; eauto.
Qed.

Lemma encode_scalars s :
  Forall (fun c => is_scalar c = true) s -> is_Some (Utf8.encode s).
Proof.
  induction 1 as [|c s Hc Hs [bs IH]]; simpl; [eauto|].
  destruct (encode_cp_scalar c Hc) as [b ->]. rewrite IH. eauto.
Qed.

Lemma escape_char_scalar c :
  is_scalar c = true -> Forall (fun c => is_scalar c = true) (escape_char c).
Proof.
  intros Hc. destruct (N.lt_ge_cases c 32) as [Hlt|Hge].
  - assert (exists n, (n < 32)%nat /\ c = N.of_nat n) as (n & Hn & ->).
    { exists (N.to_nat c). lia. }
    do 32 (destruct n as [|n]; [by repeat constructor|]). lia.
  - destruct (N.eq_dec c 34) as [->|H34]; [by repeat constructor|].
    destruct (N.eq_dec c 92) as [->|H92]; [by repeat constructor|].
    rewrite escape_char_literal by done. by repeat constructor.
Qed.

Lemma escaped_scalars s :
  Forall (fun c => is_scalar c = true) s ->
  Forall (fun c => is_scalar c = true) (flat_map escape_char s).
Proof.
  induction 1 as [|c s Hc Hs IH]; simpl; [constructor|].
  apply Forall_app. split; [by apply escape_char_scalar|done].
Qed.

Lemma record_text_scalars title content url :
  Forall (fun c => is_scalar c = true) title ->
  Forall (fun c => is_scalar c = true) content ->
  Forall (fun c => is_scalar c = true) url ->
  Forall (fun c => is_scalar c = true) (record_text title content url []).
Proof.
  intros Ht Hc Hu. unfold record_text.
  repeat first [ apply Forall_cons; split; [reflexivity|]
               | apply Forall_app; split;
                 [apply escaped_scalars; first [assumption|by repeat constructor]|]
               | apply Forall_nil ].
  done.
Qed.

(** Text that starts like a pretty-printed object is taken for UTF-8. *)
Lemma detect_encoding_record title content url octets :
  Utf8.encode (record_text title content url []) = Some octets ->
  detect_encoding octets = UTF8.
Proof.
  unfold record_text. simpl.
  destruct (Utf8.encode _) as [b|]; [|done]. by intros [= <-].
Qed.

(** The octets uploaded for a record parse back to the record. *)
Lemma loads_record_octets (E : env) dec title content url octets :
  Utf8.encode (dumps (pretty_encoder E) (article_record title content url))
  = Some octets ->
  loads dec octets = Some (article_record title content url).
Proof.
  intros Henc. unfold loads, decode_bytes.
  pose proof (decode_article_record E dec title content url) as Hd.
  rewrite dumps_record_text in Henc, Hd.
  by rewrite (detect_encoding_record _ _ _ _ Henc), (decode_encode _ _ Henc).
Qed.

(** ** The scanner has fuel enough *)

Lemma push_Some c r str rest :
  push c r = Some (str, rest) -> exists str', r = Some (str', rest) /\ str = c :: str'.
Proof. destruct r as [[str' rest']|]; simpl; [|done]. intros [= <- <-]. eauto. Qed.

Lemma scanstring_shorter s str r :
  scanstring s = Some (str, r) -> (length r < length s)%nat.
Proof.
  remember (length s) as n eqn:Hn. revert s str r Hn.
  induction n as [n IH] using lt_wf_ind. intros s str r -> Hs.
  destruct s as [|c s]; [done|]. simpl in Hs.
  repeat case_match; simplify_eq; simpl length; try lia;
    try match goal with
    | H : push _ (scanstring ?t) = Some _ |- _ =>
        apply push_Some in H as (? & H & _);
        apply (IH (length t)) in H; [simpl in *; lia|simpl; lia|reflexivity]
    end.
Qed.

Lemma skip_ws_length s : (length (skip_ws s) <= length s)%nat.
Proof. induction s as [|c s IH]; simpl; [lia|]. case_match; simpl; lia. Qed.

Lemma span_digits_length s ds r :
  span_digits s = (ds, r) -> (length r <= length s)%nat.
Proof.
  revert ds r. induction s as [|c s IH]; intros ds r; simpl.
  - intros [= <- <-]. simpl. lia.
  - destruct (is_digit c).
    + destruct (span_digits s) as [ds' r'] eqn:Hs. intros [= <- <-].
      specialize (IH _ _ eq_refl). lia.
    + intros [= <- <-]. simpl. lia.
Qed.

Lemma match_integer_shorter s i r :
  match_integer s = Some (i, r) -> (length r < length s)%nat.
Proof.
  unfold match_integer. intros H.
  repeat case_match; simplify_eq; simpl length;
    repeat match goal with
           | H : span_digits _ = _ |- _ => apply span_digits_length in H
           end; simpl in *; lia.
Qed.

Lemma match_frac_length s f r :
  match_frac s = (f, r) -> (length r <= length s)%nat.
Proof.
  unfold match_frac. intros H.
  repeat case_match; simplify_eq; simpl length;
    repeat match goal with
           | H : span_digits _ = _ |- _ => apply span_digits_length in H
           end; simpl in *; lia.
Qed.

Lemma match_exp_length s f r :
  match_exp s = (f, r) -> (length r <= length s)%nat.
Proof.
  unfold match_exp. intros H.
  repeat case_match; simplify_eq; simpl length;
    repeat match goal with
           | H : span_digits _ = _ |- _ => apply span_digits_length in H
           end; simpl in *; lia.
Qed.

Lemma startswith_length s p : startswith s p = true -> (length p <= length s)%nat.
Proof.
  revert s. induction p as [|c p IH]; intros [|d s]; simpl; try done; try lia.
  intros [_ H]%andb_true_iff. apply IH in H. lia.
Qed.

Section Fuel.
Context (dec : decoder).

(** With fuel [m] a result is found only in what the text holds, and any
    fuel that covers the characters used finds the same result. *)
Definition enough (m : nat) : Prop :=
  (forall s v r,
      scan_once dec m s = Some (v, r) ->
      (length r < length s)%nat /\
      forall n, (length s - length r <= n)%nat -> scan_once dec n s = Some (v, r))
  /\ (forall pairs s v r,
         object_loop dec m pairs s = Some (v, r) ->
         (length r < length s)%nat /\
         forall n, (length s - length r <= n)%nat ->
                   object_loop dec n pairs s = Some (v, r))
  /\ (forall values s v r,
         array_loop dec m values s = Some (v, r) ->
         (length r < length s)%nat /\
         forall n, (length s - length r <= n)%nat ->
                   array_loop dec n values s = Some (v, r)).

Ltac lengths :=
  repeat match goal with
         | H : context [length (skip_ws ?s)] |- _ =>
             lazymatch goal with
             | _ : (length (skip_ws s) <= length s)%nat |- _ => fail
             | _ => pose proof (skip_ws_length s)
             end
         end;
  repeat match goal with
         | H : scanstring _ = Some _ |- _ => apply scanstring_shorter in H
         | H : match_integer _ = Some _ |- _ => apply match_integer_shorter in H
         | H : match_frac _ = _ |- _ => apply match_frac_length in H
         | H : match_exp _ = _ |- _ => apply match_exp_length in H
         | H : startswith _ _ = true |- _ => apply startswith_length in H
         | H : skip_ws ?s = _ |- _ =>
             let L := fresh "L" in
             pose proof (skip_ws_length s) as L; rewrite H in L; clear H
         end;
  simpl in *; rewrite ?length_drop in *; try lia.

Ltac replay :=
  repeat match goal with
         | H : ?x = _ |- context [?x] => rewrite H
         | H : forall n, _ -> scan_once dec n ?s = _
           |- context [scan_once dec _ ?s] => rewrite H by lengths
         | H : forall n, _ -> object_loop dec n ?a ?s = _
           |- context [object_loop dec _ ?a ?s] => rewrite H by lengths
         | H : forall n, _ -> array_loop dec n ?a ?s = _
           |- context [array_loop dec _ ?a ?s] => rewrite H by lengths
         end.

Ltac by_replay :=
  split; [lengths|];
  intros [|?] ?; [exfalso; lengths|];
  cbn [scan_once object_loop array_loop]; replay; reflexivity.

Ltac use_IH IHs IHo IHa :=
  repeat match goal with
         | H : scan_once dec _ _ = Some _ |- _ => apply IHs in H as [? ?]
         | H : object_loop dec _ _ _ = Some _ |- _ => apply IHo in H as [? ?]
         | H : array_loop dec _ _ _ = Some _ |- _ => apply IHa in H as [? ?]
         end.

Lemma fuel_enough m : enough m.
Proof.
  induction m as [|m (IHs & IHo & IHa)]; [by repeat split|].
  split; [|split].
  - intros s v r H. destruct s as [|c s']; [done|].
    cbn [scan_once] in H.
    repeat case_match; simplify_eq; use_IH IHs IHo IHa; by_replay.
  - intros pairs s v r H. cbn [object_loop] in H.
    repeat case_match; simplify_eq; use_IH IHs IHo IHa.
    all: by_replay.
  - intros values s v r H. cbn [array_loop] in H.
    repeat case_match; simplify_eq; use_IH IHs IHo IHa; by_replay.
Qed.

(** More fuel than the text has characters changes nothing. *)
Lemma scan_once_fuel s m :
  (length s < m)%nat -> scan_once dec m s = scan_once dec (S (length s)) s.
Proof.
  intros Hm.
  destruct (scan_once dec m s) as [[v r]|] eqn:H1.
  - apply fuel_enough in H1 as [_ H1]. symmetry. apply H1. lia.
  - destruct (scan_once dec (S (length s)) s) as [[v r]|] eqn:H2; [|done].
    apply fuel_enough in H2 as [_ H2]. rewrite H2 in H1 by lia. done.
Qed.
(** [decode] would find the same with any larger amount of fuel. *)
Lemma decode_fuel s m :
  (length s < m)%nat ->
  match scan_once dec m (skip_ws s) with
  | Some (obj, r) => match skip_ws r with [] => Some obj | _ => None end
  | None => None
  end = decode dec s.
Proof.
  intros Hm. unfold decode. pose proof (skip_ws_length s) as Hl.
  rewrite (scan_once_fuel (skip_ws s) m), (scan_once_fuel (skip_ws s) (S (length s)));
    [done|lia|lia].
Qed.

End Fuel.

(** ** The model at work *)

(** JSON text written with single quotes for the double ones. *)
Definition js (s : string) : list N :=
  map (fun c => if c =? 39 then 34 else c) (u s).

Definition test_decoder : decoder :=
  {| parse_float := fun _ => S754_zero false;
     max_str_digits := 4300;
     decode_wide := fun _ _ => None |}.

Example decode_nested :
  decode test_decoder
    (js " {'a': [1, -20, true, false, null, [], {}], 'b': 'x\ty\u00e9', 'a': 'again'} ")
  = Some (PDict [(u "a", PStr (u "again"));
                 (u "b", PStr [120; 9; 121; 233])]).
Proof. reflexivity. Qed.

Example decode_surrogate_pair :
  decode test_decoder (js "['\ud83d\ude00', '\ud83d', '\ud83dx']")
  = Some (PList [PStr [128512]; PStr [55357]; PStr [55357; 120]]).
Proof. reflexivity. Qed.

Example decode_constants :
  decode test_decoder (js "[NaN, Infinity, -Infinity, -0]")
  = Some (PList [PFloat S754_nan; PFloat (S754_infinity false);
                 PFloat (S754_infinity true); PInt 0]).
Proof. reflexivity. Qed.

Example decode_rejects :
  Forall (fun text => decode test_decoder (js text) = None)
    [""; "{'a': 1,}"; "{'a' 1}"; "[1 2]"; "'open"; "'\x'"; "01"; "1.e5"; "{} x";
     "tru"; "{a: 1}"; "[1,]"; "-"].
Proof. repeat constructor. Qed.

Example detect_encoding_cases :
  map detect_encoding
    [[0; 0; 254; 255]; [123; 0; 0; 0]; [123; 0; 34; 0]; [0; 123; 0; 34];
     [0; 0; 0; 123]; [123; 125]; [0; 55]; [239; 187; 191; 123; 125];
     [255; 254; 123; 0]; [123; 10; 32; 32]]
  = [UTF32; UTF32_LE; UTF16_LE; UTF16_BE; UTF32_BE; UTF8; UTF16_BE; UTF8_SIG;
     UTF16; UTF8].
Proof. reflexivity. Qed.

Example loads_utf8 :
  loads test_decoder (js "{'a': '" ++ [195; 169; 240; 159; 152; 128] ++ js "'}")
  = Some (PDict [(u "a", PStr [233; 128512])])
  /\ loads test_decoder (js "{'a': '" ++ [195] ++ js "'}") = None.
Proof. split; reflexivity. Qed.

Example get_text_nested :
  extract_content
    [Tag (u "div") []
       [Tag (u "article") []
          [Tag (u "p") [] [Text (u " Hello "); Tag (u "b") [] [Text (u "big")];
                           Text (u " world ")];
           Tag (u "div") [] [Tag (u "p") [] [Text (u "Second.")]]]]]
  = u "Hellobigworld Second.".
Proof. reflexivity. Qed.

(** One empty paragraph gives an empty content; two of them give a single
    space, which is not empty. *)
Example empty_paragraphs :
  extract_content [Tag (u "article") [] [Tag (u "p") [] []]] = []
  /\ extract_content [Tag (u "article") []
                        [Tag (u "p") [] []; Tag (u "p") [] [Text (u "  ")]]] = u " ".
Proof. split; reflexivity. Qed.

(** ** Discovery of the article links *)

Section Discover.
Context {PS : PySet}.

Lemma first_seen_elem l x : x ∈ first_seen l <-> x ∈ l.
Proof.
  induction l as [|y l IH]; simpl; [done|].
  rewrite !elem_of_cons, <- IH, list_elem_of_In, filter_In, <- list_elem_of_In.
  destruct (decide (x = y)) as [->|Hne]; [tauto|].
  rewrite str_eqb_neq by done. simpl. tauto.
Qed.

Lemma NoDup_list_filter (f : list N -> bool) l : NoDup l -> NoDup (List.filter f l).
Proof.
  induction 1 as [|x l Hx Hl IH]; simpl; [constructor|].
  destruct (f x); [|done]. constructor; [|done].
  rewrite list_elem_of_In, filter_In, <- list_elem_of_In. tauto.
Qed.

Lemma first_seen_NoDup l : NoDup (first_seen l).
Proof.
  induction l as [|y l IH]; simpl; constructor.
  - rewrite list_elem_of_In, filter_In. intros [_ H].
    by rewrite str_eqb_refl in H.
  - by apply NoDup_list_filter.
Qed.

Lemma length_list_filter (f : list N -> bool) (l : list (list N)) :
  (length (List.filter f l) <= length l)%nat.
Proof. induction l as [|x l IH]; simpl; [lia|]. destruct (f x); simpl; lia. Qed.

Lemma length_list_filter_lt (f : list N -> bool) (l : list (list N)) x :
  x ∈ l -> f x = false -> (length (List.filter f l) < length l)%nat.
Proof.
  induction l as [|y l IH]; [by intros ?%elem_of_nil|].
  intros [->|Hx]%elem_of_cons Hf; simpl.
  - rewrite Hf. pose proof (length_list_filter f l). lia.
  - specialize (IH Hx Hf). destruct (f y); simpl; lia.
Qed.

Lemma first_seen_length l : (length (first_seen l) <= length l)%nat.
Proof.
  induction l as [|y l IH]; simpl; [lia|].
  pose proof (length_list_filter (fun z => negb (str_eqb z y)) (first_seen l)). lia.
Qed.

Lemma first_seen_length_dup l : ~ NoDup l -> (length (first_seen l) < length l)%nat.
Proof.
  induction l as [|y l IH]; intros Hd; [destruct Hd; constructor|].
  simpl. destruct (decide (y ∈ l)) as [Hy|Hy].
  - pose proof (first_seen_length l).
    pose proof (length_list_filter_lt (fun z => negb (str_eqb z y)) (first_seen l) y) as Hlt.
    rewrite first_seen_elem, str_eqb_refl in Hlt. specialize (Hlt Hy eq_refl). lia.
  - assert (~ NoDup l) as Hl by (intros Hl; apply Hd; by constructor).
    specialize (IH Hl).
    pose proof (length_list_filter (fun z => negb (str_eqb z y)) (first_seen l)). lia.
Qed.

Lemma first_seen_NoDup_id l : NoDup l -> first_seen l = l.
Proof.
  induction 1 as [|x l Hx Hl IH]; simpl; [done|]. rewrite IH. f_equal.
  clear IH Hl. induction l as [|y l IH]; simpl; [done|].
  apply not_elem_of_cons in Hx as [Hxy Hx].
  rewrite str_eqb_neq by done. simpl. by rewrite IH.
Qed.

(** Filling a set from a list keeps one copy of each element. *)
Lemma fill_set l s :
  NoDup (set_iter s) ->
  let s' := fold_left (fun s x => set_add x s) l s in
  NoDup (set_iter s') /\ forall x, x ∈ set_iter s' <-> x ∈ set_iter s \/ x ∈ l.
Proof.
  revert s. induction l as [|y l IH]; intros s Hs; simpl.
  - split; [done|]. intros x. rewrite elem_of_nil. tauto.
  - destruct (decide (y ∈ set_iter s)) as [Hy|Hy].
    + destruct (IH (set_add y s)) as [Hn He].
      { by rewrite set_iter_add_old. }
      split; [done|]. intros x. rewrite He, set_iter_add_old, elem_of_cons by done.
      split; [tauto|]. intros [?|[->|?]]; tauto.
    + pose proof (set_iter_add_new y s Hy) as Hp.
      destruct (IH (set_add y s)) as [Hn He].
      { rewrite Hp. by constructor. }
      split; [done|]. intros x. rewrite He, Hp, !elem_of_cons. tauto.
Qed.

Lemma fill_set_first_seen l :
  set_iter (fold_left (fun s x => set_add x s) l set_new) ≡ₚ first_seen l.
Proof.
  destruct (fill_set l set_new) as [Hn He].
  { rewrite set_iter_new. constructor. }
  apply NoDup_Permutation; [done|apply first_seen_NoDup|].
  intros x. rewrite He, set_iter_new, first_seen_elem, elem_of_nil. tauto.
Qed.

(** Every anchor [find_all] selected has an [href], so the loop never
    raises [KeyError]. *)
Lemma collect_links_total articles s :
  Forall (fun a => is_article_href (get a (u "href")) = true) articles ->
  collect_links articles s
  = inr (fold_left (fun s x => set_add x s) (map anchor_url articles) s).
Proof.
  intros H. revert s. induction H as [|a l Ha Hl IH]; intros s; simpl; [done|].
  destruct (get a (u "href")) as [h|] eqn:Hg; [|done].
  assert (anchor_url a = full_url h) as -> by (unfold anchor_url; by rewrite Hg).
  apply IH.
Qed.

Lemma find_all_href_Forall soup name f :
  Forall (fun a => f (get a (u "href")) = true) (find_all_href soup name f).
Proof.
  unfold find_all_href. apply Forall_forall. intros a.
  rewrite list_elem_of_In, filter_In. tauto.
Qed.

Lemma discover_eq soup :
  discover soup
  = inr (set_iter (fold_left (fun s x => set_add x s)
                             (take 10 (article_urls soup)) set_new)).
Proof.
  unfold discover, article_urls. rewrite collect_links_total.
  - by rewrite firstn_map.
  - apply Forall_take, find_all_href_Forall.
Qed.

Lemma article_urls_prefix soup x :
  x ∈ article_urls soup -> startswith x article_prefix = true.
Proof.
  unfold article_urls. rewrite list_elem_of_In, in_map_iff.
  intros (a & <- & Ha%list_elem_of_In).
  pose proof (find_all_href_Forall soup (u "a") is_article_href) as HF.
  rewrite Forall_forall in HF. specialize (HF a Ha).
  unfold anchor_url. destruct (get a (u "href")) as [h|]; [|done].
  simpl in HF. apply andb_true_iff in HF as [_ HF].
  change article_prefix with (u "https://www.bbc.com" ++ u "/news/articles").
  unfold full_url. simpl default. by apply startswith_app_l.
Qed.

End Discover.

(** C1, as the code has it: whatever the homepage, the links
    [fetch_live_articles] goes on to process are at most 10, pairwise
    distinct, each an absolute URL under the article prefix, and they are
    exactly the distinct URLs of the first 10 matching anchors, in the
    order in which the set iterates (not necessarily the order of the
    document).  When the page has at least 10 matching anchors and their
    URLs are pairwise distinct (15, say), exactly the first 10 are processed. *)
Theorem discover_links {PS : PySet} (soup : list node) :
  exists links,
    discover soup = inr links /\
    (length links <= 10)%nat /\
    NoDup links /\
    (forall x, x ∈ links -> startswith x article_prefix = true) /\
    links ≡ₚ first_seen (take 10 (article_urls soup)) /\
    (NoDup (article_urls soup) -> (10 <= length (article_urls soup))%nat ->
     links ≡ₚ take 10 (article_urls soup) /\ length links = 10%nat).
Proof.
  eexists. split; [apply discover_eq|].
  pose proof (fill_set_first_seen (take 10 (article_urls soup))) as Hp.
  pose proof (first_seen_length (take 10 (article_urls soup))) as Hl.
  rewrite length_take in Hl.
  split; [rewrite Hp; lia|].
  split; [rewrite Hp; apply first_seen_NoDup|].
  split.
  { intros x. rewrite Hp, first_seen_elem. intros Hx.
    apply (article_urls_prefix soup). eapply elem_of_sublist; [done|apply sublist_take]. }
  split; [done|]. intros Hnd Hlen.
  rewrite Hp, first_seen_NoDup_id by (eapply sublist_NoDup; [done|apply sublist_take]).
  split; [done|]. rewrite length_take. lia.
Qed.

(** A page with two article links. *)
Definition anchor (href : string) : node := Tag (u "a") [(u "href", u href)] [].

Definition two_links : list node :=
  [anchor "/news/articles/a"; anchor "/news/articles/b"].

(** C1, as stated, fails: with a set whose table iterates newest first, the
    two links of [two_links] are processed in the order b, a, which is not
    the order of the document. *)
Lemma discover_not_in_document_order :
  ~ (forall (PS : PySet) (soup : list node) (links : list (list N)),
        @discover PS soup = inr links ->
        links `sublist_of` first_seen (article_urls soup)).
Proof.
  intros H. specialize (H newest_first two_links _ eq_refl).
  vm_compute in H.
  inversion H as [| ? ? ? H1 | ? ? ? H1]; subst;
    inversion H1 as [| ? ? ? H2 | ? ? ? H2]; subst; inversion H2.
Qed.

(** A page with fifteen distinct article links, nested in the markup
    between other links. *)
Definition fifteen_links : list node :=
  [Tag (u "div") []
     (Tag (u "a") [(u "href", u "/sport")] [Text (u "Sport")]
      :: map anchor ["/news/articles/c01"; "/news/articles/c02";
                     "/news/articles/c03"; "/news/articles/c04";
                     "/news/articles/c05"; "/news/articles/c06";
                     "/news/articles/c07"]);
   Tag (u "ul") []
     [Tag (u "li") [] (map anchor ["/news/articles/c08"; "/news/articles/c09"]);
      Tag (u "li") [] (Tag (u "a") [] [Text (u "no target")]
                       :: map anchor ["/news/articles/c10"; "/news/articles/c11";
                                      "/news/articles/c12"; "/news/articles/c13";
                                      "/news/articles/c14"; "/news/articles/c15"])]].

Example fifteen_links_in_order :
  @discover insertion_ordered fifteen_links
  = inr (map (fun s => u "https://www.bbc.com/news/articles/" ++ u s)
             ["c01"; "c02"; "c03"; "c04"; "c05"; "c06"; "c07"; "c08"; "c09"; "c10"]).
Proof. reflexivity. Qed.

Lemma discover_links_witness :
  exists links,
    @discover trie_ordered fifteen_links = inr links /\
    links ≡ₚ take 10 (article_urls fifteen_links) /\ length links = 10%nat.
Proof.
  destruct (@discover_links trie_ordered fifteen_links)
    as (links & Hd & _ & _ & _ & _ & Hten).
  exists links. split; [exact Hd|]. apply Hten.
  - compute_done.
  - vm_compute. lia.
Defined.

(** C10: the cap of 10 is applied to the matching anchors before the URLs
    are deduplicated.  When the first 10 matching anchors repeat a URL,
    fewer than 10 links are processed; and only URLs of the first 10
    matching anchors are processed, so a matching anchor further down whose
    URL is not among them is never processed. *)
Theorem cap_before_dedup {PS : PySet} (soup : list node) (links : list (list N)) :
  discover soup = inr links ->
  (~ NoDup (take 10 (article_urls soup)) -> (length links < 10)%nat) /\
  (forall x, x ∈ links -> x ∈ take 10 (article_urls soup)) /\
  (forall i x, (10 <= i)%nat -> article_urls soup !! i = Some x ->
               x ∉ take 10 (article_urls soup) -> x ∉ links).
Proof.
  rewrite discover_eq. intros [= <-].
  pose proof (fill_set_first_seen (take 10 (article_urls soup))) as Hp.
  assert (forall x, x ∈ set_iter (fold_left (fun s x => set_add x s)
                                            (take 10 (article_urls soup)) set_new)
                    -> x ∈ take 10 (article_urls soup)) as Hsub.
  { intros x. by rewrite Hp, first_seen_elem. }
  split; [|split; [exact Hsub|]].
  - intros Hd. rewrite Hp.
    pose proof (first_seen_length_dup _ Hd) as Hlt.
    rewrite length_take in Hlt. lia.
  - intros i x _ _ Hx Hin. by apply Hx, Hsub.
Qed.

(** A page whose first ten article links repeat one URL, followed by a link
    to an article not seen before. *)
Definition repeated_links : list node :=
  map anchor ["/news/articles/r1"; "/news/articles/r2"; "/news/articles/r1";
              "/news/articles/r3"; "/news/articles/r4"; "/news/articles/r5";
              "/news/articles/r6"; "/news/articles/r7"; "/news/articles/r8";
              "/news/articles/r9"; "/news/articles/late"].

Lemma cap_before_dedup_witness :
  exists links,
    @discover newest_first repeated_links = inr links /\
    (length links < 10)%nat /\
    u "https://www.bbc.com/news/articles/late" ∉ links.
Proof.
  eexists. split; [reflexivity|].
  destruct (@cap_before_dedup newest_first repeated_links _ eq_refl)
    as (Hlt & _ & Hlate).
  split.
  - apply Hlt. compute_done.
  - apply (Hlate 10%nat); [lia|reflexivity|compute_done].
Defined.

(** ** The storage client and [save_to_blob] *)

Ltac unfold_M :=
  unfold bind, ret, raise, try_except, do in *.

Section Storage.
Context (E : env).

Lemma ensure_container_cases container w :
  exists r w',
    ensure_container E container w = (r, w') /\
    requests_made w' = requests_made w /\
    ((exists e, r = inl e /\ containers w' = containers w)
     \/ (r = inr tt /\
         containers w' = <[container := blobs_of w container]> (containers w))).
Proof.
  unfold ensure_container, container_exists, create_container, service_call, blobs_of.
  unfold_M.
  destruct (storage_fault E (storage_calls w)) as [e|] eqn:F1; simpl.
  { eauto 10. }
  destruct (containers w !! container) as [b|] eqn:Hc; simpl.
  - do 2 eexists. split; [done|]. split; [done|]. right. split; [done|].
    simpl. by rewrite insert_id.
  - destruct (storage_fault E (S (storage_calls w))) as [e|] eqn:F2; simpl.
    { eauto 10. }
    rewrite Hc. eauto 10.
Qed.

Lemma upload_blob_cases container name data w b :
  containers w !! container = Some b ->
  exists r w',
    upload_blob E container name data w = (r, w') /\
    requests_made w' = requests_made w /\
    ((exists e, r = inl e /\ containers w' = containers w)
     \/ (exists octets,
           r = inr tt /\ Utf8.encode data = Some octets /\
           containers w' = <[container := <[name := octets]> b]> (containers w))).
Proof.
  intros Hb. unfold upload_blob, service_call. unfold_M.
  destruct (Utf8.encode data) as [octets|]; [|eauto 10].
  destruct (storage_fault E (storage_calls w)) as [e|]; simpl; [eauto 10|].
  rewrite Hb. eauto 10.
Qed.

Lemma bind_assoc {A B C} (m : M A) (f : A -> M B) (g : B -> M C) w :
  bind (bind m f) g w = bind m (fun x => bind (f x) g) w.
Proof. unfold bind. by destruct (m w) as [[e|a] w']. Qed.

Lemma ensure_container_then {A} container (k : M A) w :
  (let! present := container_exists E container in
   (if negb present then create_container E container else ret tt) ;; k) w
  = (ensure_container E container ;; k) w.
Proof. symmetry. apply bind_assoc. Qed.

Lemma save_to_blob_eq data name :
  save_to_blob E data name
  = save_with E (u "articles-data")
      (fun n => u "Uploaded " ++ n ++ u " to Blob Storage in container articles-data.")
      (u "Error uploading to Blob Storage: ") data name.
Proof. reflexivity. Qed.

Lemma save_to_blob_with_sentiment_eq data name :
  save_to_blob_with_sentiment E data name
  = save_with E (u "articles-sentiment")
      (fun n => u "Uploaded " ++ n
                ++ u " to Blob Storage in container articles-sentiment.")
      (u "Error uploading sentiment data to Blob Storage: ") data name.
Proof. reflexivity. Qed.

(** Everything an upload function can do to the world: it returns, it
    makes no request, and the store is left as it was, or with the
    container created, or with the blob put in the container. *)
Lemma save_with_cases container uploaded failed data name w :
  exists w',
    save_with E container uploaded failed data name w = (inr tt, w') /\
    requests_made w' = requests_made w /\
    (containers w' = containers w
     \/ containers w' = <[container := blobs_of w container]> (containers w)
     \/ exists octets,
          Utf8.encode (dumps (pretty_encoder E) data) = Some octets /\
          containers w'
          = <[container := <[name := octets]> (blobs_of w container)]> (containers w)).
Proof.
  unfold save_with, try_except.
  assert (from_connection_string E w = (inr tt, w)
          \/ exists e, from_connection_string E w = (inl e, w)) as [Hc|[e Hc]].
  { unfold from_connection_string.
    destruct (BLOB_CONNECTION_STRING E) as [c|]; [|right; by eexists].
    destruct (connection_string_ok E c); [by left|right; by eexists]. }
  2:{ unfold bind at 1. rewrite Hc. unfold do. simpl. eauto 10. }
  unfold bind at 1. rewrite Hc. rewrite ensure_container_then.
  unfold bind at 1.
  destruct (ensure_container_cases container w)
    as (r & w1 & -> & Hr1 & [(e & -> & Hc1)|[-> Hc1]]).
  { unfold do. eexists. split; [reflexivity|]. simpl. rewrite Hr1, Hc1. eauto. }
  assert (containers w1 !! container = Some (blobs_of w container))
    as Hb by (rewrite Hc1; apply lookup_insert_eq).
  unfold bind at 1.
  destruct (upload_blob_cases container name
              (dumps (pretty_encoder E) data) w1 _ Hb)
    as (r & w2 & -> & Hr2 & [(e & -> & Hc2)|(octets & -> & Henc & Hc2)]).
  { unfold do. eexists. split; [reflexivity|]. simpl.
    rewrite Hr2, Hr1, Hc2, Hc1. eauto 10. }
  unfold do. eexists. split; [reflexivity|]. simpl.
  rewrite Hr2, Hr1, Hc2, Hc1, insert_insert_eq. eauto 10.
Qed.

(** With a healthy service the blob is stored. *)
Lemma save_with_healthy container uploaded failed data name octets w :
  healthy E ->
  Utf8.encode (dumps (pretty_encoder E) data) = Some octets ->
  exists w',
    save_with E container uploaded failed data name w = (inr tt, w') /\
    containers w'
    = <[container := <[name := octets]> (blobs_of w container)]> (containers w).
Proof.
  intros [(c & Hc & Hok) Hf] Henc.
  unfold save_with, from_connection_string, container_exists, create_container,
    upload_blob, service_call, blobs_of.
  rewrite Hc, Hok, Henc. unfold_M. rewrite !Hf. simpl.
  destruct (containers w !! container) as [b|] eqn:Hb; simpl.
  - rewrite Hf. simpl. rewrite Hb. eauto.
  - rewrite !Hf. simpl. rewrite Hb. simpl. rewrite Hf. simpl.
    rewrite lookup_insert_eq. eexists. split; [done|]. simpl.
    by rewrite insert_insert_eq.
Qed.

Lemma save_to_blob_cases data name w :
  exists w',
    save_to_blob E data name w = (inr tt, w') /\
    requests_made w' = requests_made w /\
    (containers w' = containers w
     \/ containers w'
        = <[u "articles-data" := blobs_of w (u "articles-data")]> (containers w)
     \/ exists octets,
          Utf8.encode (dumps (pretty_encoder E) data) = Some octets /\
          containers w'
          = <[u "articles-data" := <[name := octets]> (blobs_of w (u "articles-data"))]>
              (containers w)).
Proof. rewrite save_to_blob_eq. apply save_with_cases. Qed.

(** ** Ingestion *)

Lemma process_article_cases url w :
  exists w',
    process_article E url w = (inr tt, w') /\
    requests_made w' = requests_made w ++ [url] /\
    match fetch_outcome E url with
    | inl e =>
        w' = logging ERROR (u "Error fetching article " ++ url ++ u ": " ++ exn_msg e)
               (add_request url w)
    | inr content =>
        let soup := html_parser E content in
        if nonempty (extract_content soup)
        then w' = (save_to_blob E (article_record (extract_title soup)
                                     (extract_content soup) url)
                     (blob_name_of (extract_title soup)) (add_request url w)).2
        else w' = logging WARNING (u "No content found for article " ++ url)
                    (add_request url w)
    end.
Proof.
  unfold process_article, fetch. unfold_M.
  destruct (fetch_outcome E url) as [e|content]; simpl; [eauto|].
  destruct (nonempty (extract_content (html_parser E content))); simpl.
  - destruct (save_to_blob_cases
                (article_record (extract_title (html_parser E content))
                   (extract_content (html_parser E content)) url)
                (blob_name_of (extract_title (html_parser E content)))
                (add_request url w)) as (w' & -> & Hr & _).
    eauto.
  - eauto.
Qed.

Lemma for_each_process_article links w :
  exists w',
    for_each links (process_article E) w = (inr tt, w') /\
    requests_made w' = requests_made w ++ links.
Proof.
  revert w. induction links as [|url links IH]; intros w; simpl.
  - unfold ret. eexists. split; [done|]. by rewrite app_nil_r.
  - unfold bind.
    destruct (process_article_cases url w) as (w1 & -> & Hr1 & _).
    destruct (IH w1) as (w2 & -> & Hr2).
    eexists. split; [done|]. by rewrite Hr2, Hr1, <- app_assoc.
Qed.

End Storage.

(** Sample environments: a network given by a table of responses, a parser
    given by a table of pages, a storage service that never fails. *)
Definition sample_env (get : list N -> http_result)
    (parse : list N -> list node) : env := {|
  BLOB_CONNECTION_STRING := Some (u "UseDevelopmentStorage=true");
  connection_string_ok := fun _ => true;
  requests_get := get;
  html_parser := parse;
  storage_fault := fun _ => None;
  textblob_sentiment := fun _ => inr (S754_zero false, S754_zero false);
  py_float_repr := fun _ => u "0.0";
  json_decoder := {| parse_float := fun _ => S754_zero false;
                     max_str_digits := 4300;
                     decode_wide := fun _ _ => None |}
|}.

Definition empty_world : world := World ∅ 0 [] [].

Definition article_page (title : string) (paragraphs : list string) : list node :=
  [Tag (u "html") []
     [Tag (u "body") []
        [Tag (u "h1") [] [Text (u title)];
         Tag (u "article") []
           (map (fun p => Tag (u "p") [] [Text (u p)]) paragraphs)]]].

(** The homepage links to articles a and b; a answers 404, b is there. *)
Definition one_missing (url : list N) : http_result :=
  if str_eqb url homepage then Response 200 (u "OK") (u "home")
  else if str_eqb url (u "https://www.bbc.com/news/articles/b")
       then Response 200 (u "OK") (u "page b")
       else Response 404 (u "Not Found") [].

Definition pages (content : list N) : list node :=
  if str_eqb content (u "home") then two_links
  else if str_eqb content (u "page b")
       then article_page "Storm hits coast" ["  Wind and rain. "; "More soon."]
       else [].

(** The homepage itself is down. *)
Definition all_down (url : list N) : http_result :=
  RequestFailed (Exn "ConnectionError" (u "Max retries exceeded")).

(** C5: [fetch_live_articles] never raises.  When the request for the
    homepage fails, it logs the error and returns: the only request of the run is the one for
    the homepage, and the store is untouched.  When it succeeds, every
    discovered link is requested, whatever happens to the others; and an
    article whose request fails only adds its request and one error to the
    log, after which the loop goes on with the remaining links. *)
Theorem fetch_failures (E : env) {PS : PySet} (w : world) :
  (exists w', fetch_live_articles E w = (inr tt, w'))
  /\ (forall e,
      fetch_outcome E homepage = inl e ->
      fetch_live_articles E w
      = (inr tt, logging ERROR (u "Error fetching BBC News homepage: " ++ exn_msg e)
                   (add_request homepage w)))
  /\ (forall content links,
         fetch_outcome E homepage = inr content ->
         discover (html_parser E content) = inr links ->
         exists w',
           fetch_live_articles E w = (inr tt, w') /\
           requests_made w' = requests_made w ++ homepage :: links)
  /\ (forall url rest e w0,
         fetch_outcome E url = inl e ->
         let w1 := logging ERROR (u "Error fetching article " ++ url ++ u ": "
                                  ++ exn_msg e) (add_request url w0) in
         process_article E url w0 = (inr tt, w1) /\
         for_each (url :: rest) (process_article E) w0
         = for_each rest (process_article E) w1).
Proof.
  split; [|split; [|split]].
  - unfold fetch_live_articles, fetch. unfold_M.
    destruct (fetch_outcome E homepage) as [e|content]; simpl; [eauto|].
    rewrite discover_eq.
    destruct (for_each_process_article E
                (set_iter (fold_left (fun s x => set_add x s)
                             (take 10 (article_urls (html_parser E content))) set_new))
                (add_request homepage w)) as (w' & -> & _).
    eauto.
  - intros e He. unfold fetch_live_articles, fetch. unfold_M. by rewrite He.
  - intros content links Hc Hl. unfold fetch_live_articles, fetch. unfold_M.
    rewrite Hc. simpl. rewrite Hl.
    destruct (for_each_process_article E links (add_request homepage w))
      as (w' & -> & Hr).
    eexists. split; [done|]. rewrite Hr. simpl. by rewrite <- app_assoc.
  - intros url rest e w0 He w1.
    destruct (process_article_cases E url w0) as (w' & Hp & _ & Hw).
    rewrite He in Hw. subst w'. split; [done|].
    simpl. unfold bind at 1. by rewrite Hp.
Qed.

Lemma fetch_failures_witness :
  @fetch_live_articles (sample_env all_down pages) trie_ordered empty_world
  = (inr tt,
     World ∅ 0 [homepage]
       [(ERROR, u "Error fetching BBC News homepage: Max retries exceeded")])
  /\ (exists w',
         @fetch_live_articles (sample_env one_missing pages) newest_first empty_world
         = (inr tt, w') /\
         requests_made w'
         = [homepage; u "https://www.bbc.com/news/articles/b";
            u "https://www.bbc.com/news/articles/a"]).
Proof.
  split.
  - destruct (@fetch_failures (sample_env all_down pages) trie_ordered empty_world)
      as (_ & H & _ & _).
    apply (H _ eq_refl).
  - destruct (@fetch_failures (sample_env one_missing pages) newest_first empty_world)
      as (_ & _ & H & _).
    apply (H (u "home") _ eq_refl eq_refl).
Defined.

(** The run of [one_missing]: article a is skipped with an error, article b
    is stored. *)
Example one_missing_run :
  let w := (@fetch_live_articles (sample_env one_missing pages) insertion_ordered
              empty_world).2 in
  requests_made w = [homepage; u "https://www.bbc.com/news/articles/a";
                     u "https://www.bbc.com/news/articles/b"]
  /\ dom (blobs_of w (u "articles-data")) = {[u "article-Storm_hits_coast.json"]}
  /\ map fst (log w) = [ERROR; INFO].
Proof. vm_compute. done. Qed.

Section Extraction.
Context (E : env).

(** Without an [article] element, or without a [p] inside it, the
    content is empty. *)
Lemma extract_content_no_paragraphs (soup : list node) :
  (find soup (u "article") = None
   \/ exists a, find soup (u "article") = Some a
                /\ find_all (contents_of a) (u "p") = []) ->
  extract_content soup = [].
Proof.
  unfold extract_content. intros [->|(a & -> & ->)]; done.
Qed.

(** C3: [process_article] always returns.  When the content it extracts
    is empty (as it is when the page has no paragraph inside an [article]
    element), it touches neither the store nor the storage service.  And
    any object of [articles-data] that is new or changed afterwards is the
    encoding of a record of this URL whose content is not empty, stored
    under the name derived from its title, and parses back to that record. *)
Theorem no_empty_content_written (url : list N) (w : world) :
  exists w',
    process_article E url w = (inr tt, w') /\
    (forall page,
        fetch_outcome E url = inr page ->
        extract_content (html_parser E page) = [] ->
        containers w' = containers w /\ storage_calls w' = storage_calls w) /\
    (forall soup,
        (find soup (u "article") = None
         \/ exists a, find soup (u "article") = Some a
                      /\ find_all (contents_of a) (u "p") = []) ->
        extract_content soup = []) /\
    (forall name octets,
        blobs_of w' (u "articles-data") !! name = Some octets ->
        blobs_of w (u "articles-data") !! name <> Some octets ->
        exists title content,
          content <> [] /\
          name = blob_name_of title /\
          Utf8.encode (dumps (pretty_encoder E) (article_record title content url))
          = Some octets /\
          loads (json_decoder E) octets = Some (article_record title content url)).
Proof.
  destruct (process_article_cases E url w) as (w' & Hp & _ & Hw).
  exists w'. split; [done|]. split; [|split; [apply extract_content_no_paragraphs|]].
  - intros page Hf He. rewrite Hf in Hw. simpl in Hw. rewrite He in Hw. simpl in Hw.
    by subst w'.
  - intros name octets Hnew Hold.
    destruct (fetch_outcome E url) as [e|page].
    { subst w'. done. }
    simpl in Hw.
    destruct (extract_content (html_parser E page)) as [|c content] eqn:Hcontent;
      simpl in Hw.
    { subst w'. done. }
    destruct (save_to_blob_cases E
                (article_record (extract_title (html_parser E page)) (c :: content) url)
                (blob_name_of (extract_title (html_parser E page)))
                (add_request url w)) as (w2 & Hs & _ & Hc).
    rewrite Hs in Hw. simpl in Hw. subst w2.
    unfold blobs_of in Hnew, Hold.
    destruct Hc as [Hc|[Hc|(o & Henc & Hc)]]; rewrite Hc in Hnew; simpl in *.
    + done.
    + unfold blobs_of in Hnew. simpl in Hnew. rewrite lookup_insert_eq in Hnew. done.
    + unfold blobs_of in Hnew. simpl in Hnew. rewrite lookup_insert_eq in Hnew.
      simpl in Hnew.
      destruct (decide (name = blob_name_of (extract_title (html_parser E page))))
        as [->|Hne].
      * rewrite lookup_insert_eq in Hnew. injection Hnew as <-.
        exists (extract_title (html_parser E page)), (c :: content).
        split; [done|]. split; [done|]. split; [done|].
        by apply (loads_record_octets E).
      * rewrite lookup_insert_ne in Hnew by done. done.
Qed.

End Extraction.

(** A page with a title and an [article] element without paragraphs. *)
Definition no_paragraphs (url : list N) : http_result :=
  Response 200 (u "OK") (u "bare").

Definition bare_pages (content : list N) : list node :=
  [Tag (u "h1") [] [Text (u "Live")]; Tag (u "article") [] [Text (u "Loading")]].

Lemma no_empty_content_written_witness :
  exists w',
    @process_article (sample_env no_paragraphs bare_pages)
      (u "https://www.bbc.com/news/articles/x") empty_world = (inr tt, w')
    /\ containers w' = ∅ /\ storage_calls w' = 0%nat.
Proof.
  destruct (no_empty_content_written (sample_env no_paragraphs bare_pages)
              (u "https://www.bbc.com/news/articles/x") empty_world)
    as (w' & Hp & Hempty & _).
  exists w'. split; [exact Hp|].
  apply (Hempty (u "bare")); reflexivity.
Defined.

(** ** Blob names *)

Lemma replace_nonempty_char a b s fuel :
  (length s < fuel)%nat ->
  replace_nonempty [a] [b] s fuel = map (fun c => if c =? a then b else c) s.
Proof.
  revert fuel. induction s as [|c s IH]; intros [|fuel] Hf; simpl in *; try lia.
  - done.
  - rewrite (N.eqb_sym c a). destruct (a =? c); simpl; f_equal; apply IH; lia.
Qed.

(** [s.replace(a, b)] with one character for one character is a map over
    the characters. *)
Lemma replace_char a b s :
  replace s [a] [b] = map (fun c => if c =? a then b else c) s.
Proof. unfold replace. apply replace_nonempty_char. lia. Qed.

Lemma lookup_map {A B} (f : A -> B) (l : list A) (i : nat) :
  map f l !! i = f <$> (l !! i).
Proof. revert i. induction l as [|x l IH]; intros [|i]; simpl; auto. Qed.

Section BlobNames.
Context (E : env).

Lemma save_to_blob_healthy data name octets w :
  healthy E ->
  Utf8.encode (dumps (pretty_encoder E) data) = Some octets ->
  exists w',
    save_to_blob E data name w = (inr tt, w') /\
    containers w'
    = <[u "articles-data" := <[name := octets]> (blobs_of w (u "articles-data"))]>
        (containers w).
Proof. rewrite save_to_blob_eq. apply save_with_healthy. Qed.

Lemma process_article_healthy url page octets w :
  healthy E ->
  fetch_outcome E url = inr page ->
  let soup := html_parser E page in
  extract_content soup <> [] ->
  Utf8.encode (dumps (pretty_encoder E)
                 (article_record (extract_title soup) (extract_content soup) url))
  = Some octets ->
  exists w',
    process_article E url w = (inr tt, w') /\
    containers w'
    = <[u "articles-data" :=
          <[blob_name_of (extract_title soup) := octets]>
            (blobs_of w (u "articles-data"))]> (containers w).
Proof.
  intros Hh Hf soup Hne Henc.
  destruct (process_article_cases E url w) as (w' & Hp & _ & Hw).
  rewrite Hf in Hw. simpl in Hw. fold soup in Hw.
  destruct (extract_content soup) as [|c content] eqn:Hc; [done|]. simpl in Hw.
  destruct (save_to_blob_healthy _ (blob_name_of (extract_title soup)) _
              (add_request url w) Hh Henc) as (w2 & Hs & Hc2).
  rewrite Hs in Hw. simpl in Hw. subst w2. eauto.
Qed.

End BlobNames.

Example blob_name_keeps_other_characters :
  blob_name_of (u "AC/DC: a 'live'  review") = u "article-AC/DC:_a_'live'__review.json".
Proof. reflexivity. Qed.

(** C8: the blob name is ["article-"], the title with every space (32)
    turned into an underscore (95), and [".json"]; every other character of
    the title is kept where it is.  So two articles with the same title get
    the same name, and with overwriting uploads the second one replaces
    the first: after both, the name holds the second record and the
    container has no more names than after the first. *)
Theorem blob_name_derivation (E : env) :
  (forall title,
      blob_name_of title
      = u "article-" ++ map (fun c => if c =? 32 then 95 else c) title ++ u ".json")
  /\ (forall title i c,
         title !! i = Some c -> c <> 32 ->
         blob_name_of title !! (8 + i)%nat = Some c)
  /\ (forall w url1 url2 page1 page2 o1 o2,
         healthy E ->
         fetch_outcome E url1 = inr page1 ->
         fetch_outcome E url2 = inr page2 ->
         let soup1 := html_parser E page1 in
         let soup2 := html_parser E page2 in
         extract_title soup1 = extract_title soup2 ->
         extract_content soup1 <> [] ->
         extract_content soup2 <> [] ->
         Utf8.encode (dumps (pretty_encoder E)
                        (article_record (extract_title soup1)
                                        (extract_content soup1) url1)) = Some o1 ->
         Utf8.encode (dumps (pretty_encoder E)
                        (article_record (extract_title soup2)
                                        (extract_content soup2) url2)) = Some o2 ->
         let name := blob_name_of (extract_title soup1) in
         let w1 := (process_article E url1 w).2 in
         let w2 := (process_article E url2 w1).2 in
         blobs_of w1 (u "articles-data") !! name = Some o1 /\
         blobs_of w2 (u "articles-data") !! name = Some o2 /\
         dom (blobs_of w2 (u "articles-data")) = dom (blobs_of w1 (u "articles-data"))).
Proof.
  assert (forall title,
             blob_name_of title
             = u "article-" ++ map (fun c => if c =? 32 then 95 else c) title
                 ++ u ".json") as Hname.
  { intros title. unfold blob_name_of. by rewrite (replace_char 32 95). }
  split; [exact Hname|split].
  - intros title i c Hi Hc. rewrite Hname.
    change (u "article-") with ([97; 114; 116; 105; 99; 108; 101; 45] : list N).
    simpl. rewrite lookup_app_l by (rewrite length_map; by eapply lookup_lt_Some).
    rewrite lookup_map, Hi. simpl.
    by rewrite (proj2 (N.eqb_neq c 32)).
  - intros w url1 url2 page1 page2 o1 o2 Hh Hf1 Hf2 soup1 soup2 Ht Hc1 Hc2 He1 He2
      name w1 w2.
    destruct (process_article_healthy E url1 page1 o1 w Hh Hf1 Hc1 He1)
      as (w1' & Hp1 & Hw1).
    assert (w1 = w1') as -> by (unfold w1; by rewrite Hp1).
    destruct (process_article_healthy E url2 page2 o2 w1' Hh Hf2 Hc2 He2)
      as (w2' & Hp2 & Hw2).
    assert (w2 = w2') as -> by (unfold w2; by rewrite Hp2).
    fold soup1 in Hw1. fold soup2 in Hw2. rewrite <- Ht in Hw2. fold name in Hw1, Hw2.
    assert (blobs_of w1' (u "articles-data")
            = <[name := o1]> (blobs_of w (u "articles-data"))) as Hb1.
    { unfold blobs_of at 1. by rewrite Hw1, lookup_insert_eq. }
    assert (blobs_of w2' (u "articles-data")
            = <[name := o2]> (blobs_of w1' (u "articles-data"))) as Hb2.
    { unfold blobs_of at 1. by rewrite Hw2, lookup_insert_eq. }
    rewrite Hb2, Hb1, insert_insert_eq, !lookup_insert_eq, !dom_insert_L. done.
Qed.

(** Two articles under different URLs with the same headline. *)
Definition same_title (url : list N) : http_result :=
  if str_eqb url (u "https://www.bbc.com/news/articles/one")
  then Response 200 (u "OK") (u "first")
  else Response 200 (u "OK") (u "second").

Definition same_title_pages (content : list N) : list node :=
  if str_eqb content (u "first")
  then article_page "Budget: what we know" ["The first report."]
  else article_page "Budget: what we know" ["A later report."; "With more."].

Lemma blob_name_derivation_witness :
  let E := sample_env same_title same_title_pages in
  let w1 := (process_article E (u "https://www.bbc.com/news/articles/one")
               empty_world).2 in
  let w2 := (process_article E (u "https://www.bbc.com/news/articles/two") w1).2 in
  blobs_of w2 (u "articles-data") !! u "article-Budget:_what_we_know.json"
  = Utf8.encode
      (dumps (pretty_encoder E)
         (article_record (u "Budget: what we know") (u "A later report. With more.")
            (u "https://www.bbc.com/news/articles/two")))
  /\ dom (blobs_of w2 (u "articles-data")) = dom (blobs_of w1 (u "articles-data")).
Proof.
  intros E w1 w2.
  destruct (blob_name_derivation E) as (_ & _ & H).
  edestruct (H empty_world (u "https://www.bbc.com/news/articles/one")
               (u "https://www.bbc.com/news/articles/two") (u "first") (u "second"))
    as (_ & H2 & H3).
  - split; [exists (u "UseDevelopmentStorage=true"); split; reflexivity|].
    intros n. reflexivity.
  - reflexivity.
  - reflexivity.
  - reflexivity.
  - vm_compute. discriminate.
  - vm_compute. discriminate.
  - vm_compute. reflexivity.
  - vm_compute. reflexivity.
  - split; [exact H2|exact H3].
Defined.

(** ** Enrichment *)

Lemma dict_get_set_eq d k v : dict_get (dict_set d k v) k = Some v.
Proof.
  induction d as [|[k' v'] d IH]; simpl.
  - by rewrite str_eqb_refl.
  - destruct (str_eqb k' k) eqn:Hk; simpl; rewrite Hk; done.
Qed.

Lemma dict_get_set_ne d k v k' : k' <> k -> dict_get (dict_set d k v) k' = dict_get d k'.
Proof.
  intros Hne. induction d as [|[k0 v0] d IH]; simpl.
  - by rewrite str_eqb_neq.
  - destruct (str_eqb k0 k) eqn:Hk; simpl; [|by rewrite IH].
    apply str_eqb_eq in Hk as ->. by rewrite str_eqb_neq.
Qed.

Lemma SFltb_zero_antisym (f : spec_float) :
  SFltb f (S754_zero false) = true -> SFltb (S754_zero false) f = false.
Proof. by destruct f as [| [|] | | [|] ? ?]. Qed.

Lemma SFeqb_zero_not_lt (f : spec_float) :
  SFeqb f (S754_zero false) = true -> SFltb (S754_zero false) f = false.
Proof. by destruct f as [| [|] | | [|] ? ?]. Qed.

Section Enrichment.
Context (E : env).

(** What [enrich] returns when it returns a record. *)
Lemma enrich_Some d enriched :
  enrich E (PDict d) = inr (Some enriched) ->
  exists text polarity subjectivity,
    dict_get d (u "content") = Some (PStr text) /\ text <> [] /\
    textblob_sentiment E text = inr (polarity, subjectivity) /\
    enriched = PDict (dict_set d (u "sentiment") (sentiment_block polarity subjectivity)).
Proof.
  unfold enrich.
  destruct (dict_get d (u "content")) as [c|]; simpl; [|done].
  destruct (truthy c) eqn:Ht; simpl; [|done].
  destruct c as [| | | |text| |]; try done.
  destruct (textblob_sentiment E text) as [e|[polarity subjectivity]] eqn:Hs; [done|].
  intros [= <-]. exists text, polarity, subjectivity.
  split; [done|]. split; [by destruct text|]. done.
Qed.

(** C2: the overall sentiment is ["positive"] exactly when the polarity
    is greater than zero; a polarity equal to zero (of either sign) or
    less than zero gives ["negative"], and so does a polarity that is not
    a number.  This is the value stored under [overall] in the sentiment
    block of every enriched record. *)
Theorem overall_positive_iff :
  (forall polarity,
      (overall polarity = u "positive" <-> SFltb (S754_zero false) polarity = true)
      /\ (SFeqb polarity (S754_zero false) = true -> overall polarity = u "negative")
      /\ (SFltb polarity (S754_zero false) = true -> overall polarity = u "negative")
      /\ (overall polarity <> u "positive" -> overall polarity = u "negative"))
  /\ overall S754_nan = u "negative"
  /\ (forall d enriched,
         enrich E (PDict d) = inr (Some enriched) ->
         exists text polarity subjectivity d',
           dict_get d (u "content") = Some (PStr text) /\
           textblob_sentiment E text = inr (polarity, subjectivity) /\
           enriched = PDict d' /\
           dict_get d' (u "sentiment")
           = Some (PDict [(u "polarity", PFloat polarity);
                          (u "subjectivity", PFloat subjectivity);
                          (u "overall", PStr (overall polarity))])).
Proof.
  split; [|split; [reflexivity|]].
  - intros polarity. unfold overall.
    split; [|split; [|split]].
    + destruct (SFltb (S754_zero false) polarity); split; intros H; done.
    + intros H. by rewrite SFeqb_zero_not_lt.
    + intros H. by rewrite SFltb_zero_antisym.
    + destruct (SFltb (S754_zero false) polarity); done.
  - intros d enriched (text & polarity & subjectivity & Hc & _ & Hs & ->)%enrich_Some.
    exists text, polarity, subjectivity. eexists.
    split; [done|]. split; [done|]. split; [done|]. apply dict_get_set_eq.
Qed.

End Enrichment.

(** 0.8, 0.6 and -0.5 as binary64 numbers. *)
Definition float_0_8 : spec_float := S754_finite false 7205759403792794 (-53).
Definition float_0_6 : spec_float := S754_finite false 5404319552844595 (-53).
Definition float_minus_half : spec_float := S754_finite true 4503599627370496 (-53).

Lemma overall_positive_iff_witness :
  overall float_0_8 = u "positive"
  /\ overall (S754_zero false) = u "negative"
  /\ overall (S754_zero true) = u "negative"
  /\ overall float_minus_half = u "negative".
Proof.
  destruct (overall_positive_iff (sample_env all_down pages)) as (H & _ & _).
  split; [|split; [|split]].
  - destruct (H float_0_8) as (Hp & _). apply Hp. reflexivity.
  - destruct (H (S754_zero false)) as (_ & Hz & _). apply Hz. reflexivity.
  - destruct (H (S754_zero true)) as (_ & Hz & _). apply Hz. reflexivity.
  - destruct (H float_minus_half) as (_ & _ & Hn & _). apply Hn. reflexivity.
Defined.

Section BlobTrigger.
Context (E : env).

Lemma save_to_blob_with_sentiment_returns data name w :
  exists w', save_to_blob_with_sentiment E data name w = (inr tt, w').
Proof.
  rewrite save_to_blob_with_sentiment_eq.
  destruct (save_with_cases E (u "articles-sentiment")
              (fun n => u "Uploaded " ++ n
                        ++ u " to Blob Storage in container articles-sentiment.")
              (u "Error uploading sentiment data to Blob Storage: ") data name w)
    as (w' & H & _).
  eauto.
Qed.

(** The four ways through [BlobTrigger]. *)
Lemma BlobTrigger_cases name size blob w :
  let w0 := logging INFO (blob_received name size) w in
  BlobTrigger E name size blob w
  = match loads (json_decoder E) blob with
    | None =>
        (inr tt, logging ERROR (u "Error processing blob " ++ name ++ u ": "
                                ++ u "Expecting value") w0)
    | Some article_data =>
        match enrich E article_data with
        | inl e =>
            (inr tt, logging ERROR (u "Error processing blob " ++ name ++ u ": "
                                    ++ exn_msg e) w0)
        | inr None =>
            (inr tt, logging WARNING (u "No content found in the blob data.") w0)
        | inr (Some enriched) =>
            save_to_blob_with_sentiment E enriched (u "sentiment-" ++ name) w0
        end
    end.
Proof.
  intros w0. unfold BlobTrigger, try_except. unfold bind at 1, do at 1. fold w0.
  destruct (loads (json_decoder E) blob) as [article_data|]; [|done].
  destruct (enrich E article_data) as [e|[enriched|]]; [done| |done].
  by destruct (save_to_blob_with_sentiment_returns enriched (u "sentiment-" ++ name) w0)
    as (w' & ->).
Qed.

(** C7: enriching a record of title, content and URL gives the same three
    fields, in place and unchanged, followed by the one new field
    [sentiment] with polarity, subjectivity and overall sentiment; this is
    the record the blob trigger hands to [save_to_blob_with_sentiment].  For
    any parsed object, every key other than [sentiment] keeps its value. *)
Theorem enriched_record_frame :
  (forall title content url enriched,
      enrich E (article_record title content url) = inr (Some enriched) ->
      exists polarity subjectivity,
        textblob_sentiment E content = inr (polarity, subjectivity) /\
        enriched
        = PDict [(u "title", PStr title); (u "content", PStr content);
                 (u "url", PStr url);
                 (u "sentiment",
                  PDict [(u "polarity", PFloat polarity);
                         (u "subjectivity", PFloat subjectivity);
                         (u "overall", PStr (overall polarity))])])
  /\ (forall d enriched,
         enrich E (PDict d) = inr (Some enriched) ->
         exists d',
           enriched = PDict d' /\
           forall k, k <> u "sentiment" -> dict_get d' k = dict_get d k)
  /\ (forall name size blob title content url polarity subjectivity w,
         loads (json_decoder E) blob = Some (article_record title content url) ->
         content <> [] ->
         textblob_sentiment E content = inr (polarity, subjectivity) ->
         BlobTrigger E name size blob w
         = save_to_blob_with_sentiment E
             (PDict [(u "title", PStr title); (u "content", PStr content);
                     (u "url", PStr url);
                     (u "sentiment", sentiment_block polarity subjectivity)])
             (u "sentiment-" ++ name)
             (logging INFO (blob_received name size) w)).
Proof.
  split; [|split].
  - intros title content url enriched
      (text & polarity & subjectivity & Hc & _ & Hs & ->)%enrich_Some.
    vm_compute in Hc. injection Hc as <-.
    exists polarity, subjectivity. split; [done|]. reflexivity.
  - intros d enriched (text & polarity & subjectivity & _ & _ & _ & ->)%enrich_Some.
    eexists. split; [done|]. intros k Hk. by apply dict_get_set_ne.
  - intros name size blob title content url polarity subjectivity w Hl Hc Hs.
    rewrite BlobTrigger_cases, Hl.
    assert (enrich E (article_record title content url)
            = inr (Some (PDict [(u "title", PStr title); (u "content", PStr content);
                                (u "url", PStr url);
                                (u "sentiment", sentiment_block polarity subjectivity)])))
      as ->; [|done].
    unfold enrich, article_record.
    change (dict_get _ (u "content")) with (Some (PStr content)).
    destruct content as [|c content]; [done|]. simpl. by rewrite Hs.
Qed.

(** C4: [BlobTrigger] never raises.  When the blob does not parse, or when
    the parsed object has no [content], an empty one, or one that counts as
    false, the invocation only writes to the log (its first message, then
    the error or the warning) and changes nothing else: no call to the
    storage service, no object written. *)
Theorem BlobTrigger_aborts_quietly (name : list N) (size : option Z)
    (blob : list N) (w : world) :
  let w0 := logging INFO (blob_received name size) w in
  (exists w', BlobTrigger E name size blob w = (inr tt, w'))
  /\ (loads (json_decoder E) blob = None ->
      BlobTrigger E name size blob w
      = (inr tt, logging ERROR (u "Error processing blob " ++ name
                                ++ u ": Expecting value") w0))
  /\ (forall d,
         loads (json_decoder E) blob = Some (PDict d) ->
         dict_get d (u "content") = None
         \/ dict_get d (u "content") = Some (PStr [])
         \/ (exists c, dict_get d (u "content") = Some c /\ truthy c = false) ->
         BlobTrigger E name size blob w
         = (inr tt, logging WARNING (u "No content found in the blob data.") w0))
  /\ containers w0 = containers w /\ storage_calls w0 = storage_calls w.
Proof.
  intros w0. rewrite BlobTrigger_cases. fold w0. split; [|split; [|split; [|done]]].
  - destruct (loads (json_decoder E) blob) as [article_data|]; [|eauto].
    destruct (enrich E article_data) as [e|[enriched|]]; eauto.
    apply save_to_blob_with_sentiment_returns.
  - by intros ->.
  - intros d -> Hc. unfold enrich.
    destruct Hc as [->|[->|(c & -> & Hc)]]; simpl; [done|done|]. by rewrite Hc.
Qed.

End BlobTrigger.

(** A scorer that answers 0.8 and 0.6, whatever the text. *)
Definition scoring_env : env := {|
  BLOB_CONNECTION_STRING := Some (u "UseDevelopmentStorage=true");
  connection_string_ok := fun _ => true;
  requests_get := all_down;
  html_parser := pages;
  storage_fault := fun _ => None;
  textblob_sentiment := fun _ => inr (float_0_8, float_0_6);
  py_float_repr := fun _ => u "0.8";
  json_decoder := {| parse_float := fun _ => S754_zero false;
                     max_str_digits := 4300;
                     decode_wide := fun _ _ => None |}
|}.

Lemma enriched_record_frame_witness :
  exists enriched,
    enrich scoring_env (article_record (u "X") (u "I love this.") (u "u"))
    = inr (Some enriched)
    /\ enriched
       = PDict [(u "title", PStr (u "X")); (u "content", PStr (u "I love this."));
                (u "url", PStr (u "u"));
                (u "sentiment",
                 PDict [(u "polarity", PFloat float_0_8);
                        (u "subjectivity", PFloat float_0_6);
                        (u "overall", PStr (u "positive"))])].
Proof.
  destruct (enriched_record_frame scoring_env) as (H & _ & _).
  destruct (enrich scoring_env (article_record (u "X") (u "I love this.") (u "u")))
    as [e|[enriched|]] eqn:He;
    [vm_compute in He; discriminate| |vm_compute in He; discriminate].
  destruct (H _ _ _ _ He) as (polarity & subjectivity & Hs & ->).
  injection Hs as <- <-. eexists. split; reflexivity.
Defined.

(** A full invocation: the stored record of title X and content
    [I love this.] arrives, the scorer answers 0.8 and 0.6, and the enriched
    record is stored with the overall sentiment [positive]. *)
Example enrichment_scenario :
  let raw := default [] (Utf8.encode (dumps (pretty_encoder scoring_env)
                           (article_record (u "X") (u "I love this.") (u "u")))) in
  let w := (BlobTrigger scoring_env (u "articles-data/article-X.json") None raw
              empty_world).2 in
  blobs_of w (u "articles-sentiment") !! u "sentiment-articles-data/article-X.json"
  = Utf8.encode
      (dumps (pretty_encoder scoring_env)
         (PDict [(u "title", PStr (u "X")); (u "content", PStr (u "I love this."));
                 (u "url", PStr (u "u"));
                 (u "sentiment",
                  PDict [(u "polarity", PFloat float_0_8);
                         (u "subjectivity", PFloat float_0_6);
                         (u "overall", PStr (u "positive"))])])).
Proof. vm_compute. reflexivity. Qed.

Lemma BlobTrigger_aborts_quietly_witness :
  let E := sample_env all_down pages in
  let name := u "articles-data/article-X.json" in
  BlobTrigger E name (Some 21%Z) (u "<html>not json</html>") empty_world
  = (inr tt,
     World ∅ 0 []
       [(INFO, blob_received name (Some 21%Z));
        (ERROR, u "Error processing blob articles-data/article-X.json: Expecting value")])
  /\ BlobTrigger E name None
       (default [] (Utf8.encode (dumps (pretty_encoder E)
                                   (article_record (u "X") [] (u "https://x")))))
       empty_world
     = (inr tt,
        World ∅ 0 []
          [(INFO, blob_received name None);
           (WARNING, u "No content found in the blob data.")]).
Proof.
  intros E name.
  destruct (BlobTrigger_aborts_quietly E name (Some 21%Z)
              (u "<html>not json</html>") empty_world) as (_ & H1 & _).
  destruct (BlobTrigger_aborts_quietly E name None
              (default [] (Utf8.encode (dumps (pretty_encoder E)
                                          (article_record (u "X") [] (u "https://x")))))
              empty_world) as (_ & _ & H2 & _).
  split.
  - apply H1. reflexivity.
  - eapply H2; [reflexivity|]. right; left. reflexivity.
Defined.

(** ** The fake articles *)

Section FakeArticles.
Context (E : env).

Lemma upload_fakes l w b :
  containers w !! u "articles-data" = Some b ->
  exists r w',
    for_each l (fun i => upload_blob E (u "articles-data") (fake_blob_name i)
                           (dumps (default_encoder E) (fake_article i))) w
    = (r, w') /\
    (r = inr tt ->
     containers w'
     = <[u "articles-data" :=
           fold_left (fun m i => <[fake_blob_name i := fake_blob E i]> m) l b]>
         (containers w)).
Proof.
  revert w b. induction l as [|i l IH]; intros w b Hb; simpl.
  - unfold ret. do 2 eexists. split; [done|]. intros _. by rewrite insert_id.
  - unfold bind.
    destruct (upload_blob_cases E (u "articles-data") (fake_blob_name i)
                (dumps (default_encoder E) (fake_article i)) w b Hb)
      as (r & w1 & -> & _ & [(e & -> & _)|(octets & -> & Henc & Hc)]).
    { do 2 eexists. split; [done|]. done. }
    destruct (IH w1 (<[fake_blob_name i := octets]> b)) as (r & w2 & -> & Hr).
    { rewrite Hc. apply lookup_insert_eq. }
    do 2 eexists. split; [done|]. intros ->.
    rewrite Hr, Hc, insert_insert_eq by done.
    assert (fake_blob E i = octets) as -> by (unfold fake_blob; by rewrite Henc).
    done.
Qed.

Lemma generate_and_upload_returns resp w w1 :
  generate_and_upload E w = (inr resp, w1) ->
  resp = {| body := u "Successfully generated and uploaded 10 fake articles.";
            status_code := 200 |}
  /\ containers w1
     = <[u "articles-data" :=
           fold_left (fun m i => <[fake_blob_name i := fake_blob E i]> m)
                     (seq 0 10) (blobs_of w (u "articles-data"))]> (containers w).
Proof.
  unfold generate_and_upload.
  unfold bind at 1.
  destruct (from_connection_string E w) as [[e|[]] w0] eqn:Hc; [done|].
  assert (w0 = w) as ->.
  { unfold from_connection_string in Hc.
    destruct (BLOB_CONNECTION_STRING E) as [c|]; [|done].
    destruct (connection_string_ok E c); by injection Hc. }
  cbv zeta. rewrite ensure_container_then. unfold bind at 1.
  destruct (ensure_container_cases E (u "articles-data") w)
    as (r & w2 & -> & _ & [(e & -> & _)|[-> Hc2]]); [done|].
  unfold bind at 1.
  destruct (upload_fakes (seq 0 count) w2 (blobs_of w (u "articles-data")))
    as (r & w3 & -> & Hr).
  { rewrite Hc2. apply lookup_insert_eq. }
  destruct r as [e|[]]; [done|]. specialize (Hr eq_refl).
  unfold_M. intros [= <- <-]. split; [reflexivity|]. simpl.
  by rewrite Hr, Hc2, insert_insert_eq.
Qed.

Lemma fake_objects_eq :
  map (fun i => (fake_blob_name i, fake_blob E i)) (seq 0 10) = fake_objects.
Proof. vm_compute. reflexivity. Qed.

Lemma fold_left_map_insert {A} (f : A -> list N * list N) (l : list A)
    (b : gmap (list N) (list N)) :
  fold_left (fun m i => <[(f i).1 := (f i).2]> m) l b
  = fold_left (fun m kv => <[kv.1 := kv.2]> m) (map f l) b.
Proof. revert b. induction l as [|x l IH]; intros b; simpl; [done|]. apply IH. Qed.

Lemma fold_insert_other (l : list (list N * list N)) (b : gmap (list N) (list N)) k :
  k ∉ map fst l ->
  fold_left (fun m kv => <[kv.1 := kv.2]> m) l b !! k = b !! k.
Proof.
  revert b. induction l as [|[k0 v0] l IH]; intros b Hk; simpl; [done|].
  simpl in Hk. apply not_elem_of_cons in Hk as [Hne Hk].
  rewrite IH by done. by apply lookup_insert_ne.
Qed.

Lemma fold_insert_member (l : list (list N * list N)) (b : gmap (list N) (list N)) k v :
  NoDup (map fst l) -> (k, v) ∈ l ->
  fold_left (fun m kv => <[kv.1 := kv.2]> m) l b !! k = Some v.
Proof.
  revert b. induction l as [|[k0 v0] l IH]; intros b Hnd Hin; simpl.
  { by apply elem_of_nil in Hin. }
  simpl in Hnd. apply NoDup_cons in Hnd as [Hk0 Hnd].
  apply elem_of_cons in Hin as [[= -> ->]|Hin].
  - rewrite fold_insert_other by done. apply lookup_insert_eq.
  - by apply IH.
Qed.

End FakeArticles.

(** C9: when the body of [GenerateFakeArticles] runs through, the answer
    is 200 with the plain-text success message, and the container
    [articles-data] holds, under each of the ten names
    [fake-article-1.json] to [fake-article-10.json], the fixed template with
    that number; nothing else in the store is touched.  When the body
    raises, the answer is 500 with the text of the exception. *)
Theorem GenerateFakeArticles_outcomes (E : env) (w : world) :
  let w0 := logging INFO (u "Python HTTP trigger function processed a request.") w in
  (forall resp w1,
      generate_and_upload E w0 = (inr resp, w1) ->
      GenerateFakeArticles E w = (inr resp, w1)
      /\ status_code resp = 200%Z
      /\ body resp = u "Successfully generated and uploaded 10 fake articles."
      /\ (forall n,
             n ∈ fake_numbers ->
             blobs_of w1 (u "articles-data") !! (u "fake-article-" ++ u n ++ u ".json")
             = Some (fake_template n))
      /\ (forall name,
             name ∉ map fst fake_objects ->
             blobs_of w1 (u "articles-data") !! name
             = blobs_of w (u "articles-data") !! name)
      /\ (forall container,
             container <> u "articles-data" ->
             containers w1 !! container = containers w !! container))
  /\ (forall e w1,
         generate_and_upload E w0 = (inl e, w1) ->
         GenerateFakeArticles E w
         = (inr {| body := u "An error occurred: " ++ exn_msg e; status_code := 500 |},
            logging ERROR (u "Error generating fake articles: " ++ exn_msg e) w1))
  /\ length fake_objects = 10%nat
  /\ NoDup (map fst fake_objects).
Proof.
  intros w0. split; [|split; [|split; [reflexivity|compute_done]]].
  - intros resp w1 Hg. unfold GenerateFakeArticles, try_except.
    unfold bind at 1, do at 1. fold w0. rewrite Hg.
    split; [done|].
    apply generate_and_upload_returns in Hg as [-> Hc].
    split; [done|]. split; [done|].
    rewrite (fold_left_map_insert (fun i => (fake_blob_name i, fake_blob E i))) in Hc.
    rewrite fake_objects_eq in Hc.
    assert (blobs_of w1 (u "articles-data")
            = fold_left (fun m kv => <[kv.1 := kv.2]> m) fake_objects
                (blobs_of w (u "articles-data"))) as Hb.
    { unfold blobs_of at 1. by rewrite Hc, lookup_insert_eq. }
    split; [|split].
    + intros n Hn. rewrite Hb. apply fold_insert_member; [compute_done|].
      unfold fake_objects. rewrite list_elem_of_In. apply in_map_iff.
      exists n. split; [done|]. by apply list_elem_of_In.
    + intros name Hname. rewrite Hb. by apply fold_insert_other.
    + intros container Hne. rewrite Hc. by apply lookup_insert_ne.
  - intros e w1 Hg. unfold GenerateFakeArticles, try_except.
    unfold bind at 1, do at 1. fold w0. by rewrite Hg.
Qed.

(** The connection string is not configured. *)
Definition not_configured : env := {|
  BLOB_CONNECTION_STRING := None;
  connection_string_ok := fun _ => true;
  requests_get := all_down;
  html_parser := pages;
  storage_fault := fun _ => None;
  textblob_sentiment := fun _ => inr (S754_zero false, S754_zero false);
  py_float_repr := fun _ => u "0.0";
  json_decoder := {| parse_float := fun _ => S754_zero false;
                     max_str_digits := 4300;
                     decode_wide := fun _ _ => None |}
|}.

Lemma GenerateFakeArticles_outcomes_witness :
  (exists w1,
      GenerateFakeArticles (sample_env all_down pages) empty_world
      = (inr {| body := u "Successfully generated and uploaded 10 fake articles.";
                status_code := 200 |}, w1)
      /\ blobs_of w1 (u "articles-data") !! u "fake-article-10.json"
         = Some (fake_template "10")
      /\ size (blobs_of w1 (u "articles-data")) = 10%nat)
  /\ GenerateFakeArticles not_configured empty_world
     = (inr {| body := u "An error occurred: 'NoneType' object has no attribute 'rstrip'";
               status_code := 500 |},
        World ∅ 0 []
          [(INFO, u "Python HTTP trigger function processed a request.");
           (ERROR, u "Error generating fake articles: 'NoneType' object has no attribute 'rstrip'")]).
Proof.
  split.
  - destruct (GenerateFakeArticles_outcomes (sample_env all_down pages) empty_world)
      as (H & _).
    destruct (generate_and_upload (sample_env all_down pages)
                (logging INFO (u "Python HTTP trigger function processed a request.")
                   empty_world))
      as [[e|resp] w1] eqn:Hg; [vm_compute in Hg; discriminate|].
    destruct (H resp w1 eq_refl) as (Hr & Hs & Hb & Hn & _).
    exists w1. split; [|split].
    + rewrite Hr. f_equal. destruct resp as [b s]. simpl in *. by subst.
    + apply (Hn "10"). compute_done.
    + vm_compute in Hg. injection Hg as _ <-. vm_compute. reflexivity.
  - destruct (GenerateFakeArticles_outcomes not_configured empty_world) as (_ & H & _).
    exact (H (Exn "AttributeError" (u "'NoneType' object has no attribute 'rstrip'"))
             (logging INFO (u "Python HTTP trigger function processed a request.")
                empty_world) eq_refl).
Defined.

(** C6: the text [json.dumps(data, ensure_ascii=False, indent=4)] makes of
    a record of title, content and URL parses back to the same record,
    whatever code points the three strings hold.  So do the octets
    uploaded for it, whenever the text can be encoded as UTF-8, and it can
    be whenever the strings hold Unicode scalar values only. *)
Theorem record_round_trip (E : env) (title content url : list N) :
  let data := article_record title content url in
  let blob_content := dumps (pretty_encoder E) data in
  decode (json_decoder E) blob_content = Some data
  /\ (forall octets,
         Utf8.encode blob_content = Some octets ->
         loads (json_decoder E) octets = Some data)
  /\ (Forall (fun c => is_scalar c = true) (title ++ content ++ url) ->
      is_Some (Utf8.encode blob_content)).
Proof.
  intros data blob_content. split; [apply decode_article_record|split].
  - intros octets Henc. by apply (loads_record_octets E).
  - rewrite !Forall_app. intros (Ht & Hc & Hu).
    unfold blob_content, data. rewrite dumps_record_text.
    by apply encode_scalars, record_text_scalars.
Qed.

(** A record with accents, quotes, a line break, a control character and
    a character outside the basic plane. *)
Definition accented_record : pyval :=
  article_record ([201; 108; 101; 99; 116; 105; 111; 110; 32; 34; 50; 48; 50; 52; 34])
                 ([8220; 110; 97; 239; 118; 101; 8221; 10; 1; 92; 32; 128512])
                 (u "https://www.bbc.com/news/articles/c1").

Lemma record_round_trip_witness :
  let E := sample_env all_down pages in
  exists octets,
    Utf8.encode (dumps (pretty_encoder E) accented_record) = Some octets
    /\ loads (json_decoder E) octets = Some accented_record.
Proof.
  intros E.
  destruct (record_round_trip E
              ([201; 108; 101; 99; 116; 105; 111; 110; 32; 34; 50; 48; 50; 52; 34])
              ([8220; 110; 97; 239; 118; 101; 8221; 10; 1; 92; 32; 128512])
              (u "https://www.bbc.com/news/articles/c1")) as (_ & Hl & He).
  destruct He as [octets Ho]; [by repeat constructor|].
  exists octets. split; [exact Ho|]. apply Hl, Ho.
Defined.

(** * Further properties of the functions *)


Section Saving.
Context (E : env).

Lemma blobs_of_insert_same w container :
  forall c, default ∅ (<[container := blobs_of w container]> (containers w) !! c)
            = blobs_of w c.
Proof.
  intros c. unfold blobs_of. destruct (decide (container = c)) as [->|Hne].
  - by rewrite lookup_insert_eq.
  - by rewrite lookup_insert_ne.
Qed.

(** Everything an upload function does, field by field. *)
Lemma save_with_outcome container uploaded failed data name w :
  exists w',
    save_with E container uploaded failed data name w = (inr tt, w') /\
    requests_made w' = requests_made w /\
    (storage_calls w <= storage_calls w' <= storage_calls w + 3)%nat /\
    ((exists octets,
         Utf8.encode (dumps (pretty_encoder E) data) = Some octets /\
         containers w'
         = <[container := <[name := octets]> (blobs_of w container)]> (containers w) /\
         log w' = log w ++ [(INFO, uploaded name)])
     \/ (exists msg,
            (containers w' = containers w
             \/ containers w' = <[container := blobs_of w container]> (containers w)) /\
            log w' = log w ++ [(ERROR, failed ++ msg)])).
Proof.
  unfold save_with, from_connection_string, container_exists, create_container,
    upload_blob, service_call, blobs_of.
  unfold_M.
  destruct (BLOB_CONNECTION_STRING E) as [cs|]; [|eexists; repeat split; simpl; try lia; right; eexists; split; [by left|reflexivity]].
  destruct (connection_string_ok E cs); [|eexists; repeat split; simpl; try lia; right; eexists; split; [by left|reflexivity]].
  destruct (storage_fault E (storage_calls w)) as [e1|]; cbn -[u];
    [eexists; repeat split; simpl; try lia; right; eauto|].
  destruct (containers w !! container) as [b|] eqn:Hb; cbn -[u].
  - destruct (Utf8.encode (dumps _ data)) as [octets|]; cbn -[u].
    + destruct (storage_fault E (S (storage_calls w))) as [e2|]; cbn -[u].
      * eexists; repeat split; simpl; try lia. right. eexists. split; [by left|reflexivity].
      * rewrite Hb. eexists; repeat split; simpl; try lia. left. eauto.
    + eexists; repeat split; simpl; try lia. right. eexists. split; [by left|reflexivity].
  - destruct (storage_fault E (S (storage_calls w))) as [e2|]; cbn -[u].
    { eexists; repeat split; simpl; try lia. right. eexists. split; [by left|reflexivity]. }
    rewrite Hb. cbn -[u].
    destruct (Utf8.encode (dumps _ data)) as [octets|]; cbn -[u].
    + destruct (storage_fault E (S (S (storage_calls w)))) as [e3|]; cbn -[u].
      * eexists; repeat split; simpl; try lia. right. eexists. split; [by right|reflexivity].
      * rewrite lookup_insert_eq. eexists; repeat split; simpl; try lia. left.
        eexists. split; [done|]. split; [|done]. by rewrite insert_insert_eq.
    + eexists; repeat split; simpl; try lia. right. eexists. split; [by right|reflexivity].
Qed.

(** What an upload function leaves untouched. *)
Lemma save_with_frame container uploaded failed data name w :
  exists w',
    save_with E container uploaded failed data name w = (inr tt, w') /\
    requests_made w' = requests_made w /\
    (storage_calls w <= storage_calls w' <= storage_calls w + 3)%nat /\
    (forall c, c <> container -> containers w' !! c = containers w !! c) /\
    (forall n, n <> name -> blobs_of w' container !! n = blobs_of w container !! n) /\
    ((exists octets,
         Utf8.encode (dumps (pretty_encoder E) data) = Some octets /\
         blobs_of w' container !! name = Some octets /\
         log w' = log w ++ [(INFO, uploaded name)])
     \/ (exists msg,
            (forall c, blobs_of w' c = blobs_of w c) /\
            log w' = log w ++ [(ERROR, failed ++ msg)])).
Proof.
  destruct (save_with_outcome container uploaded failed data name w)
    as (w' & Hs & Hr & Hc & Ho).
  exists w'. split; [done|]. split; [done|]. split; [done|].
  destruct Ho as [(octets & Henc & Hw & Hl)|(msg & [Hw|Hw] & Hl)].
  - split; [|split].
    + intros c Hne. rewrite Hw. by apply lookup_insert_ne.
    + intros n Hne. unfold blobs_of at 1. rewrite Hw, lookup_insert_eq. simpl.
      by apply lookup_insert_ne.
    + left. exists octets. split; [done|]. split; [|done].
      unfold blobs_of at 1. rewrite Hw, lookup_insert_eq. simpl.
      apply lookup_insert_eq.
  - split; [|split].
    + intros c _. by rewrite Hw.
    + intros n _. unfold blobs_of. by rewrite Hw.
    + right. exists msg. split; [|done]. intros c. unfold blobs_of. by rewrite Hw.
  - split; [|split].
    + intros c Hne. rewrite Hw. by apply lookup_insert_ne.
    + intros n _. unfold blobs_of at 1. by rewrite Hw, lookup_insert_eq.
    + right. exists msg. split; [|done]. intros c. unfold blobs_of at 1. rewrite Hw.
      apply blobs_of_insert_same.
Qed.

End Saving.

(** X1: [save_to_blob] never raises and makes no request.  It calls the
    storage service at most three times, and touches nothing but the blob
    of the given name in [articles-data]: either that blob now holds the
    encoded record and one line is logged at level INFO, or every blob of
    every container is as it was and one line is logged at level ERROR. *)
Theorem save_to_blob_all_or_nothing (E : env) (data : pyval) (name : list N)
    (w : world) :
  exists w',
    save_to_blob E data name w = (inr tt, w') /\
    requests_made w' = requests_made w /\
    (storage_calls w <= storage_calls w' <= storage_calls w + 3)%nat /\
    (forall c, c <> u "articles-data" -> containers w' !! c = containers w !! c) /\
    (forall n, n <> name ->
               blobs_of w' (u "articles-data") !! n = blobs_of w (u "articles-data") !! n) /\
    ((exists octets,
         Utf8.encode (dumps (pretty_encoder E) data) = Some octets /\
         blobs_of w' (u "articles-data") !! name = Some octets /\
         log w' = log w ++ [(INFO, u "Uploaded " ++ name
                                   ++ u " to Blob Storage in container articles-data.")])
     \/ (exists msg,
            (forall c, blobs_of w' c = blobs_of w c) /\
            log w' = log w ++ [(ERROR, u "Error uploading to Blob Storage: " ++ msg)])).
Proof.
  rewrite save_to_blob_eq.
  exact (save_with_frame E (u "articles-data")
           (fun n => u "Uploaded " ++ n
                     ++ u " to Blob Storage in container articles-data.")
           (u "Error uploading to Blob Storage: ") data name w).
Qed.

(** X2: [BlobTrigger] never raises, makes no request and calls the storage
    service at most three times.  It leaves every container other than
    [articles-sentiment] as it was, [articles-data] (whose new blobs start
    it) among them, and in [articles-sentiment] it touches no blob but the one
    named after the triggering blob. *)
Theorem BlobTrigger_isolated (E : env) (name : list N) (size : option Z)
    (blob : list N) (w : world) :
  exists w',
    BlobTrigger E name size blob w = (inr tt, w') /\
    requests_made w' = requests_made w /\
    (storage_calls w <= storage_calls w' <= storage_calls w + 3)%nat /\
    (forall c, c <> u "articles-sentiment" ->
               containers w' !! c = containers w !! c) /\
    containers w' !! u "articles-data" = containers w !! u "articles-data" /\
    (forall n, n <> u "sentiment-" ++ name ->
               blobs_of w' (u "articles-sentiment") !! n
               = blobs_of w (u "articles-sentiment") !! n).
Proof.
  assert (forall w',
             BlobTrigger E name size blob w = (inr tt, w') ->
             requests_made w' = requests_made w ->
             (storage_calls w <= storage_calls w' <= storage_calls w + 3)%nat ->
             (forall c, c <> u "articles-sentiment" ->
                        containers w' !! c = containers w !! c) ->
             (forall n, n <> u "sentiment-" ++ name ->
                        blobs_of w' (u "articles-sentiment") !! n
                        = blobs_of w (u "articles-sentiment") !! n) ->
             exists w',
               BlobTrigger E name size blob w = (inr tt, w') /\
               requests_made w' = requests_made w /\
               (storage_calls w <= storage_calls w' <= storage_calls w + 3)%nat /\
               (forall c, c <> u "articles-sentiment" ->
                          containers w' !! c = containers w !! c) /\
               containers w' !! u "articles-data" = containers w !! u "articles-data" /\
               (forall n, n <> u "sentiment-" ++ name ->
                          blobs_of w' (u "articles-sentiment") !! n
                          = blobs_of w (u "articles-sentiment") !! n)) as Hpack.
  { intros w' H1 H2 H3 H4 H5. exists w'. repeat (split; [done|]).
    split; [|done]. by apply H4. }
  pose proof (BlobTrigger_cases E name size blob w) as Hcases. cbv zeta in Hcases.
  destruct (loads (json_decoder E) blob) as [article_data|].
  2:{ eapply Hpack; [exact Hcases|done|simpl; lia|done|done]. }
  destruct (enrich E article_data) as [e|[enriched|]].
  1,3: eapply Hpack; [exact Hcases|done|simpl; lia|done|done].
  rewrite save_to_blob_with_sentiment_eq in Hcases.
  destruct (save_with_frame E (u "articles-sentiment")
              (fun n => u "Uploaded " ++ n
                        ++ u " to Blob Storage in container articles-sentiment.")
              (u "Error uploading sentiment data to Blob Storage: ")
              enriched (u "sentiment-" ++ name)
              (logging INFO (blob_received name size) w))
    as (w' & Hs & Hr & Hc & Hother & Hn & _).
  rewrite Hs in Hcases. by eapply Hpack.
Qed.

(** X3: [BlobTrigger] reaches the storage service only for a blob that
    parses to a JSON object whose [content] is a non-empty string on which
    the scorer succeeds.  For anything else (text that does not parse, a
    list or a number at top level, a content that is a number, a scorer that
    raises) the storage service is never called. *)
Theorem BlobTrigger_calls_storage_only_for_records (E : env) (name : list N)
    (size : option Z) (blob : list N) (w : world) :
  storage_calls (BlobTrigger E name size blob w).2 <> storage_calls w ->
  exists d text polarity subjectivity,
    loads (json_decoder E) blob = Some (PDict d) /\
    dict_get d (u "content") = Some (PStr text) /\
    text <> [] /\
    textblob_sentiment E text = inr (polarity, subjectivity).
Proof.
  rewrite BlobTrigger_cases.
  destruct (loads (json_decoder E) blob) as [article_data|]; [|done].
  destruct (enrich E article_data) as [e|[enriched|]] eqn:He; [done| |done].
  intros _. destruct article_data as [| | | | | |d]; try done.
  apply enrich_Some in He as (text & polarity & subjectivity & Hc & Ht & Hs & _).
  by exists d, text, polarity, subjectivity.
Qed.

Lemma BlobTrigger_calls_storage_only_for_records_witness :
  let raw := default [] (Utf8.encode (dumps (pretty_encoder scoring_env)
                           (article_record (u "X") (u "I love this.") (u "u")))) in
  exists d,
    loads (json_decoder scoring_env) raw = Some (PDict d) /\
    dict_get d (u "content") = Some (PStr (u "I love this.")).
Proof.
  intros raw.
  destruct (BlobTrigger_calls_storage_only_for_records scoring_env
              (u "articles-data/article-X.json") None raw empty_world)
    as (d & text & polarity & subjectivity & Hl & Hc & _ & _).
  { vm_compute. discriminate. }
  exists d. split; [exact Hl|].
  assert (text = u "I love this.") as <-; [|exact Hc].
  vm_compute in Hl. injection Hl as <-. vm_compute in Hc. by injection Hc.
Defined.





Lemma enrich_article_record (E : env) title content url polarity subjectivity :
  content <> [] ->
  textblob_sentiment E content = inr (polarity, subjectivity) ->
  enrich E (article_record title content url)
  = inr (Some (PDict [(u "title", PStr title); (u "content", PStr content);
                      (u "url", PStr url);
                      (u "sentiment", sentiment_block polarity subjectivity)])).
Proof.
  intros Hc Hs. unfold enrich, article_record.
  change (dict_get _ (u "content")) with (Some (PStr content)).
  destruct content as [|c content]; [done|]. simpl. by rewrite Hs.
Qed.

(** X5: the two stages compose.  With a healthy storage service, when
    [process_article] stores the record of a page and [BlobTrigger] is then
    started on the stored octets, the container [articles-sentiment] gets,
    under ["sentiment-"] followed by the triggering name, the encoding of the
    same title, content and URL with the scorer's sentiment block added; the
    raw record in [articles-data] stays as stored. *)
Theorem ingest_then_enrich (E : env) (url page raw out : list N)
    (polarity subjectivity : spec_float) (w : world) :
  healthy E ->
  fetch_outcome E url = inr page ->
  let soup := html_parser E page in
  let title := extract_title soup in
  let content := extract_content soup in
  content <> [] ->
  Utf8.encode (dumps (pretty_encoder E) (article_record title content url)) = Some raw ->
  textblob_sentiment E content = inr (polarity, subjectivity) ->
  Utf8.encode (dumps (pretty_encoder E)
                 (PDict [(u "title", PStr title); (u "content", PStr content);
                         (u "url", PStr url);
                         (u "sentiment", sentiment_block polarity subjectivity)]))
  = Some out ->
  let w1 := (process_article E url w).2 in
  blobs_of w1 (u "articles-data") !! blob_name_of title = Some raw /\
  forall name size,
    let w2 := (BlobTrigger E name size raw w1).2 in
    blobs_of w2 (u "articles-sentiment") !! (u "sentiment-" ++ name) = Some out /\
    blobs_of w2 (u "articles-data") = blobs_of w1 (u "articles-data").
Proof.
  intros Hh Hf soup title content Hc Hraw Hs Hout w1.
  destruct (process_article_healthy E url page raw w Hh Hf Hc Hraw) as (w1' & Hp & Hw1).
  assert (w1 = w1') as -> by (unfold w1; by rewrite Hp).
  split.
  { unfold blobs_of at 1. rewrite Hw1, lookup_insert_eq. simpl. apply lookup_insert_eq. }
  intros name size w2.
  pose proof (BlobTrigger_cases E name size raw w1') as Hcases. cbv zeta in Hcases.
  rewrite (loads_record_octets E _ _ _ _ _ Hraw) in Hcases.
  rewrite (enrich_article_record E title content url polarity subjectivity Hc Hs)
    in Hcases.
  rewrite save_to_blob_with_sentiment_eq in Hcases.
  destruct (save_with_healthy E (u "articles-sentiment")
              (fun n => u "Uploaded " ++ n
                        ++ u " to Blob Storage in container articles-sentiment.")
              (u "Error uploading sentiment data to Blob Storage: ")
              _ (u "sentiment-" ++ name) out
              (logging INFO (blob_received name size) w1') Hh Hout)
    as (w2' & Hs2 & Hw2).
  rewrite Hs2 in Hcases.
  assert (w2 = w2') as -> by (unfold w2; by rewrite Hcases).
  simpl in Hw2. split.
  - unfold blobs_of at 1. rewrite Hw2, lookup_insert_eq. simpl. apply lookup_insert_eq.
  - unfold blobs_of at 1. rewrite Hw2. by rewrite lookup_insert_ne by (by vm_compute).
Qed.

Lemma ingest_then_enrich_witness :
  let E := {| BLOB_CONNECTION_STRING := Some (u "UseDevelopmentStorage=true");
              connection_string_ok := fun _ => true;
              requests_get := one_missing;
              html_parser := pages;
              storage_fault := fun _ => None;
              textblob_sentiment := fun _ => inr (float_minus_half, float_0_6);
              py_float_repr := fun _ => u "-0.5";
              json_decoder := test_decoder |} in
  let w1 := (process_article E (u "https://www.bbc.com/news/articles/b") empty_world).2 in
  let w2 := (BlobTrigger E (u "articles-data/article-Storm_hits_coast.json") None
               (default [] (blobs_of w1 (u "articles-data")
                              !! u "article-Storm_hits_coast.json")) w1).2 in
  is_Some (blobs_of w2 (u "articles-sentiment")
             !! u "sentiment-articles-data/article-Storm_hits_coast.json")
  /\ blobs_of w2 (u "articles-data") = blobs_of w1 (u "articles-data").
Proof.
  intros E w1 w2.
  pose proof (fun raw out =>
                ingest_then_enrich E (u "https://www.bbc.com/news/articles/b")
                  (u "page b") raw out float_minus_half float_0_6 empty_world) as H.
  edestruct H as (Hraw & Hrest).
  - split; [exists (u "UseDevelopmentStorage=true"); split; reflexivity|].
    intros n. reflexivity.
  - reflexivity.
  - vm_compute. discriminate.
  - vm_compute. reflexivity.
  - reflexivity.
  - vm_compute. reflexivity.
  - fold w1 in Hraw.
    destruct (Hrest (u "articles-data/article-Storm_hits_coast.json") None)
      as (H1 & H2).
    unfold w2. change (extract_title (html_parser E (u "page b")))
      with (u "Storm hits coast") in Hraw.
    change (blob_name_of (u "Storm hits coast"))
      with (u "article-Storm_hits_coast.json") in Hraw.
    rewrite Hraw. simpl default. split; [by eexists|exact H2].
Defined.

(** ** The ingestion run as a whole *)

Section Run.
Context (E : env).

(** A relation between the world before and after that every
    [process_article] keeps is kept by the loop over the links. *)
Lemma for_each_process_article_keeps (R : world -> world -> Prop) :
  (forall w, R w w) ->
  (forall w1 w2 w3, R w1 w2 -> R w2 w3 -> R w1 w3) ->
  (forall url w, R w (process_article E url w).2) ->
  forall links w, R w (for_each links (process_article E) w).2.
Proof.
  intros Hrefl Htrans Hstep links. induction links as [|url links IH]; intros w; simpl.
  - apply Hrefl.
  - unfold bind. specialize (Hstep url w).
    destruct (process_article_cases E url w) as (w1 & Hp & _). rewrite Hp in *.
    simpl in Hstep. eapply Htrans; [exact Hstep|apply IH].
Qed.



End Run.


Lemma discover_bounds {PS : PySet} soup links :
  discover soup = inr links ->
  (length links <= 10)%nat /\
  forall x, x ∈ links -> startswith x article_prefix = true.
Proof.
  rewrite discover_eq. intros [= <-].
  pose proof (fill_set_first_seen (take 10 (article_urls soup))) as Hp.
  pose proof (first_seen_length (take 10 (article_urls soup))) as Hl.
  rewrite length_take in Hl. split; [rewrite Hp; lia|].
  intros x. rewrite Hp, first_seen_elem. intros Hx.
  apply (article_urls_prefix soup). eapply elem_of_sublist; [done|apply sublist_take].
Qed.

Lemma fetch_live_articles_run (E : env) {PS : PySet} w :
  exists links,
    (length links <= 10)%nat /\
    (forall x, x ∈ links -> startswith x article_prefix = true) /\
    (fetch_live_articles E w
     = (inr tt, logging ERROR (u "Error fetching BBC News homepage: "
                               ++ match fetch_outcome E homepage with
                                  | inl e => exn_msg e
                                  | inr _ => []
                                  end) (add_request homepage w))
     /\ (exists e, fetch_outcome E homepage = inl e)
     \/ fetch_live_articles E w
        = for_each links (process_article E) (add_request homepage w)).
Proof.
  unfold fetch_live_articles, fetch. unfold_M.
  destruct (fetch_outcome E homepage) as [e|content]; simpl.
  - exists []. split; [simpl; lia|]. split; [by intros x ?%elem_of_nil|].
    left. split; [done|by eexists].
  - destruct (discover (html_parser E content)) as [e|links] eqn:Hd.
    { by rewrite discover_eq in Hd. }
    apply discover_bounds in Hd as [Hl Hp]. exists links. by repeat split; [..|right].
Qed.


Lemma save_with_unconfigured (E : env) container uploaded failed data name w :
  BLOB_CONNECTION_STRING E = None ->
  save_with E container uploaded failed data name w
  = (inr tt, logging ERROR (failed ++ u "'NoneType' object has no attribute 'rstrip'") w).
Proof.
  intros Hc. unfold save_with, from_connection_string. rewrite Hc. by unfold_M.
Qed.

(** X7: without a connection string in the environment, a run of the timer
    trigger still fetches its pages but never calls the storage service and
    changes nothing in the store; the same holds for the blob trigger; and the
    seed endpoint answers 500 with the text of the exception, again without
    a call to the storage service. *)
Theorem unconfigured_never_reaches_storage (E : env) {PS : PySet} (w : world) :
  BLOB_CONNECTION_STRING E = None ->
  (forall past_due,
      let w' := (timer_trigger E past_due w).2 in
      containers w' = containers w /\ storage_calls w' = storage_calls w)
  /\ (forall name size blob,
         let w' := (BlobTrigger E name size blob w).2 in
         containers w' = containers w /\ storage_calls w' = storage_calls w)
  /\ (exists w',
         GenerateFakeArticles E w
         = (inr {| body := u "An error occurred: 'NoneType' object has no attribute 'rstrip'";
                   status_code := 500 |}, w')
         /\ containers w' = containers w /\ storage_calls w' = storage_calls w).
Proof.
  intros Hc. split; [|split].
  - intros past_due.
    set (w0 := if past_due then logging INFO (u "The timer is past due!") w else w).
    assert (timer_trigger E past_due w = fetch_live_articles E w0) as ->.
    { unfold timer_trigger, w0. unfold_M. by destruct past_due. }
    assert (storage_calls w0 = storage_calls w /\ containers w0 = containers w)
      as (Hs0 & Hc0) by (unfold w0; by destruct past_due).
    destruct (fetch_live_articles_run E w0) as (links & _ & _ & [[-> _]| ->]);
      [by simpl|].
    pose proof (for_each_process_article_keeps E
                  (fun w1 w2 => containers w2 = containers w1
                                /\ storage_calls w2 = storage_calls w1)) as Hkeep.
    specialize (Hkeep ltac:(by intros ?)).
    specialize (Hkeep ltac:(intros w1 w2 w3 [H1 H2] [H3 H4]; split; congruence)).
    rewrite <- Hs0, <- Hc0.
    refine (Hkeep _ links (add_request homepage w0)).
    intros url w1.
    destruct (process_article_cases E url w1) as (w2 & Hp & _ & Hw). rewrite Hp. simpl.
    destruct (fetch_outcome E url) as [e|page]; [by subst w2|]. simpl in Hw.
    destruct (nonempty (extract_content (html_parser E page))); [|by subst w2].
    rewrite save_to_blob_eq, save_with_unconfigured in Hw by done. by subst w2.
  - intros name size blob. rewrite BlobTrigger_cases.
    destruct (loads (json_decoder E) blob) as [article_data|]; [|done].
    destruct (enrich E article_data) as [e|[enriched|]]; [done| |done].
    by rewrite save_to_blob_with_sentiment_eq, save_with_unconfigured.
  - unfold GenerateFakeArticles, generate_and_upload, from_connection_string.
    rewrite Hc. unfold_M. by eexists.
Qed.

Lemma unconfigured_never_reaches_storage_witness :
  let E := {| BLOB_CONNECTION_STRING := None;
              connection_string_ok := fun _ => true;
              requests_get := one_missing;
              html_parser := pages;
              storage_fault := fun _ => None;
              textblob_sentiment := fun _ => inr (float_0_8, float_0_6);
              py_float_repr := fun _ => u "0.8";
              json_decoder := test_decoder |} in
  let w' := (@timer_trigger E insertion_ordered false empty_world).2 in
  containers w' = ∅ /\ storage_calls w' = 0%nat.
Proof.
  intros E w'.
  destruct (@unconfigured_never_reaches_storage E insertion_ordered empty_world eq_refl)
    as (H & _ & _).
  exact (H false).
Defined.

(** ** Saving with a healthy storage service *)

Lemma save_with_healthy_world (E : env) container uploaded failed data name w :
  healthy E ->
  let w' := (save_with E container uploaded failed data name w).2 in
  let existed := bool_decide (is_Some (containers w !! container)) in
  match Utf8.encode (dumps (pretty_encoder E) data) with
  | Some octets =>
      containers w'
      = <[container := <[name := octets]> (blobs_of w container)]> (containers w)
      /\ storage_calls w' = (storage_calls w + if existed then 2 else 3)%nat
      /\ log w' = log w ++ [(INFO, uploaded name)]
  | None =>
      containers w' = <[container := blobs_of w container]> (containers w)
      /\ storage_calls w' = (storage_calls w + if existed then 1 else 2)%nat
  end.
Proof.
  intros [(c & Hc & Hok) Hf].
  unfold save_with, from_connection_string, container_exists, create_container,
    upload_blob, service_call, blobs_of.
  rewrite Hc, Hok. unfold_M. rewrite !Hf. cbn -[u].
  destruct (containers w !! container) as [b|] eqn:Hb; cbn -[u].
  - destruct (Utf8.encode _) as [octets|]; cbn -[u].
    + rewrite Hf. cbn -[u]. rewrite Hb. cbn -[u]. repeat split; [lia].
    + rewrite insert_id by done. split; [done|lia].
  - rewrite Hf. cbn -[u]. rewrite Hb. cbn -[u].
    destruct (Utf8.encode _) as [octets|]; cbn -[u].
    + rewrite Hf. cbn -[u]. rewrite lookup_insert_eq. cbn -[u].
      rewrite insert_insert_eq. repeat split; lia.
    + split; [done|lia].
Qed.

(** X8: with a healthy storage service, [save_to_blob] creates the container
    [articles-data] when it is missing and otherwise leaves its other blobs
    alone: afterwards the container exists and holds the encoded record
    under the given name next to what it held before.  This takes three
    calls to the service when the container was missing and two when it was
    there. *)
Theorem save_to_blob_creates_container (E : env) (data : pyval)
    (name octets : list N) (w : world) :
  healthy E ->
  Utf8.encode (dumps (pretty_encoder E) data) = Some octets ->
  let w' := (save_to_blob E data name w).2 in
  containers w' !! u "articles-data"
  = Some (<[name := octets]> (blobs_of w (u "articles-data")))
  /\ storage_calls w'
     = (storage_calls w
        + if bool_decide (is_Some (containers w !! u "articles-data")) then 2 else 3)%nat.
Proof.
  intros Hh Henc. rewrite save_to_blob_eq.
  pose proof (save_with_healthy_world E (u "articles-data")
                (fun n => u "Uploaded " ++ n
                          ++ u " to Blob Storage in container articles-data.")
                (u "Error uploading to Blob Storage: ") data name w Hh) as H.
  cbv zeta in H. rewrite Henc in H. destruct H as (Hc & Hs & _).
  cbv zeta. rewrite Hc, Hs. by rewrite lookup_insert_eq.
Qed.

Lemma save_to_blob_creates_container_witness :
  let E := sample_env all_down pages in
  let data := article_record (u "T") (u "Body.") (u "https://x") in
  let w1 := (save_to_blob E data (u "article-T.json") empty_world).2 in
  let w2 := (save_to_blob E data (u "article-U.json") w1).2 in
  storage_calls w1 = 3%nat /\ storage_calls w2 = 5%nat
  /\ dom (blobs_of w2 (u "articles-data")) = {[u "article-T.json"; u "article-U.json"]}.
Proof.
  intros E data w1 w2.
  assert (healthy E) as Hh.
  { split; [exists (u "UseDevelopmentStorage=true"); split; reflexivity|].
    intros n. reflexivity. }
  edestruct (fun o H => save_to_blob_creates_container E data (u "article-T.json") o
                          empty_world Hh H) as (Hc1 & Hs1); [vm_compute; reflexivity|].
  edestruct (fun o H => save_to_blob_creates_container E data (u "article-U.json") o
                          w1 Hh H) as (Hc2 & Hs2); [vm_compute; reflexivity|].
  fold w1 in Hc1, Hs1. fold w2 in Hc2, Hs2.
  split; [exact Hs1|]. split.
  - assert (bool_decide (is_Some (containers w1 !! u "articles-data")) = true) as Hd
      by (apply bool_decide_eq_true_2; rewrite Hc1; eauto).
    rewrite Hs2, Hd, Hs1. reflexivity.
  - unfold blobs_of at 1. rewrite Hc2. simpl. unfold blobs_of at 1. rewrite Hc1. simpl.
    rewrite !dom_insert_L. unfold blobs_of. simpl. rewrite lookup_empty. simpl.
    rewrite dom_empty_L. set_solver.
Defined.

(** X9: saving is idempotent.  With a healthy storage service, saving the
    same record under the same name a second time leaves the store exactly
    as the first save left it. *)
Theorem save_to_blob_idempotent (E : env) (data : pyval) (name octets : list N)
    (w : world) :
  healthy E ->
  Utf8.encode (dumps (pretty_encoder E) data) = Some octets ->
  let w1 := (save_to_blob E data name w).2 in
  let w2 := (save_to_blob E data name w1).2 in
  containers w2 = containers w1.
Proof.
  intros Hh Henc w1 w2. unfold w2, w1. rewrite !save_to_blob_eq.
  destruct (save_with_healthy E (u "articles-data")
              (fun n => u "Uploaded " ++ n
                        ++ u " to Blob Storage in container articles-data.")
              (u "Error uploading to Blob Storage: ") data name octets w Hh Henc)
    as (w1' & -> & Hc1).
  cbn [snd].
  destruct (save_with_healthy E (u "articles-data")
              (fun n => u "Uploaded " ++ n
                        ++ u " to Blob Storage in container articles-data.")
              (u "Error uploading to Blob Storage: ") data name octets w1' Hh Henc)
    as (w2' & -> & Hc2).
  simpl. rewrite Hc2. unfold blobs_of at 1. rewrite Hc1, lookup_insert_eq. simpl.
  by rewrite !insert_insert_eq.
Qed.

Lemma save_to_blob_idempotent_witness :
  let E := sample_env all_down pages in
  let data := article_record (u "T") (u "Body.") (u "https://x") in
  let w1 := (save_to_blob E data (u "article-T.json") empty_world).2 in
  containers (save_to_blob E data (u "article-T.json") w1).2 = containers w1.
Proof.
  intros E data w1.
  eapply (save_to_blob_idempotent E data (u "article-T.json")).
  - split; [exists (u "UseDevelopmentStorage=true"); split; reflexivity|].
    intros n. reflexivity.
  - vm_compute. reflexivity.
Defined.

(** ** Running the ingestion again *)



Lemma insert_fold_insert (l : list (list N * list N)) (k v v' : list N)
    (m : gmap (list N) (list N)) :
  <[k := v]> (fold_left (fun m kv => <[kv.1 := kv.2]> m) l (<[k := v']> m))
  = <[k := v]> (fold_left (fun m kv => <[kv.1 := kv.2]> m) l m).
Proof.
  revert m. induction l as [|[k0 v0] l IH]; intros m; simpl.
  - by rewrite insert_insert_eq.
  - destruct (decide (k0 = k)) as [->|Hne].
    + by rewrite insert_insert_eq.
    + rewrite (insert_insert_ne m k0 k) by done. apply IH.
Qed.

Lemma fold_insert_twice (l : list (list N * list N)) (m : gmap (list N) (list N)) :
  fold_left (fun m kv => <[kv.1 := kv.2]> m) l
    (fold_left (fun m kv => <[kv.1 := kv.2]> m) l m)
  = fold_left (fun m kv => <[kv.1 := kv.2]> m) l m.
Proof.
  revert m. induction l as [|[k v] l IH] using rev_ind; intros m; [done|].
  rewrite !fold_left_app. simpl. rewrite insert_fold_insert. by rewrite IH.
Qed.




Section Again.
Context (E : env).





End Again.



(** ** Names and contents *)

Lemma underscore_map_inj (t1 t2 : list N) :
  95 ∉ t1 -> 95 ∉ t2 ->
  map (fun c => if c =? 32 then 95 else c) t1
  = map (fun c => if c =? 32 then 95 else c) t2 ->
  t1 = t2.
Proof.
  revert t2. induction t1 as [|c1 t1 IH]; intros [|c2 t2] H1 H2 Hm; try done.
  simpl in Hm. injection Hm as Hc Hm.
  apply not_elem_of_cons in H1 as [Hc1 H1]. apply not_elem_of_cons in H2 as [Hc2 H2].
  f_equal; [|by apply IH].
  destruct (N.eqb_spec c1 32) as [->|?], (N.eqb_spec c2 32) as [->|?]; congruence.
Qed.

Lemma underscore_map_no_space (t : list N) :
  32 ∉ map (fun c => if c =? 32 then 95 else c) t.
Proof.
  induction t as [|c t IH]; simpl; [apply not_elem_of_nil|].
  apply not_elem_of_cons. split; [|done].
  destruct (N.eqb_spec c 32); [done|congruence].
Qed.

(** X11: a blob name never contains a space.  Two titles get the same
    blob name exactly when they are equal once every space is turned into
    an underscore: titles without underscores get different names unless
    they are equal, while a title with a space and the same title with an
    underscore in its place share one name. *)
Theorem blob_name_collisions :
  (forall title, 32 ∉ blob_name_of title)
  /\ (forall t1 t2,
         blob_name_of t1 = blob_name_of t2
         <-> replace t1 (u " ") (u "_") = replace t2 (u " ") (u "_"))
  /\ (forall t1 t2,
         95 ∉ t1 -> 95 ∉ t2 -> blob_name_of t1 = blob_name_of t2 -> t1 = t2)
  /\ (forall t1 t2, blob_name_of (t1 ++ u " " ++ t2) = blob_name_of (t1 ++ u "_" ++ t2)).
Proof.
  assert (forall t1 t2,
             blob_name_of t1 = blob_name_of t2
             <-> replace t1 (u " ") (u "_") = replace t2 (u " ") (u "_")) as Hiff.
  { intros t1 t2. unfold blob_name_of. split; [|by intros ->].
    intros H. apply app_inv_head in H. by apply app_inv_tail in H. }
  split; [|split; [exact Hiff|split]].
  - intros title. unfold blob_name_of. rewrite (replace_char 32 95).
    rewrite !elem_of_app. intros [H|[H|H]].
    + by vm_compute in H; repeat (apply elem_of_cons in H as [H|H]; [done|]);
        apply elem_of_nil in H.
    + by apply underscore_map_no_space in H.
    + by vm_compute in H; repeat (apply elem_of_cons in H as [H|H]; [done|]);
        apply elem_of_nil in H.
  - intros t1 t2 H1 H2 H. apply Hiff in H. rewrite !(replace_char 32 95) in H.
    by apply underscore_map_inj.
  - intros t1 t2. apply Hiff. rewrite !(replace_char 32 95), !map_app. reflexivity.
Qed.

(** The paragraphs [process_article] reads: the [p] elements inside the
    first [article] element. *)
Definition paragraphs_of (soup : list node) : list node :=
  match find soup (u "article") with
  | Some article_body => find_all (contents_of article_body) (u "p")
  | None => []
  end.

Lemma join_nil_iff (sep : list N) (parts : list (list N)) :
  sep <> [] ->
  join sep parts = [] <-> parts = [] \/ parts = [[]].
Proof.
  intros Hsep. split.
  - destruct parts as [|p [|q parts]]; simpl; [by left| |].
    + intros ->. by right.
    + intros H. apply app_eq_nil in H as [_ H]. by apply app_eq_nil in H as [H _].
  - by intros [->| ->].
Qed.

(** X12: the content extracted from a page is empty, and the article is
    skipped, exactly when the [article] element has no paragraph or a
    single paragraph without text.  Two or more paragraphs always give a
    content that is not empty, even when none of them has any text. *)
Theorem extract_content_empty_iff (soup : list node) :
  (extract_content soup = []
   <-> paragraphs_of soup = []
       \/ exists p, paragraphs_of soup = [p] /\ get_text_strip p = [])
  /\ ((2 <= length (paragraphs_of soup))%nat -> extract_content soup <> []).
Proof.
  change (extract_content soup)
    with (join (u " ") (map get_text_strip (paragraphs_of soup))).
  split.
  - rewrite join_nil_iff by done. split.
    + intros [H|H].
      * left. by destruct (paragraphs_of soup).
      * right. destruct (paragraphs_of soup) as [|p [|q l]]; try done.
        exists p. split; [done|]. by injection H.
    + intros [->|(p & -> & Hp)]; [by left|]. right. simpl. by rewrite Hp.
  - intros Hlen H. apply join_nil_iff in H; [|done].
    destruct (paragraphs_of soup) as [|p [|q l]]; simpl in *; [lia|lia|].
    by destruct H.
Qed.

Lemma extract_content_empty_iff_witness :
  extract_content [Tag (u "article") [] [Tag (u "p") [] []; Tag (u "p") [] []]] <> [].
Proof.
  apply (proj2 (extract_content_empty_iff
                  [Tag (u "article") [] [Tag (u "p") [] []; Tag (u "p") [] []]])).
  vm_compute. lia.
Defined.

(** X13: a page without a first-level heading is stored under the title
    [No Title Found].  With a healthy storage service, every such page that
    has content ends up in the one blob [article-No_Title_Found.json], which
    then holds the record of the page with that title. *)
Theorem untitled_pages_share_a_blob (E : env) (url page octets : list N) (w : world) :
  healthy E ->
  fetch_outcome E url = inr page ->
  let soup := html_parser E page in
  find soup (u "h1") = None ->
  extract_content soup <> [] ->
  Utf8.encode (dumps (pretty_encoder E)
                 (article_record (u "No Title Found") (extract_content soup) url))
  = Some octets ->
  blobs_of (process_article E url w).2 (u "articles-data")
    !! u "article-No_Title_Found.json" = Some octets.
Proof.
  intros Hh Hf soup Hh1 Hc Henc.
  assert (extract_title soup = u "No Title Found") as Ht
    by (unfold extract_title; by rewrite Hh1).
  destruct (process_article_healthy E url page octets w Hh Hf Hc) as (w' & -> & Hw).
  { fold soup. by rewrite Ht. }
  fold soup in Hw. rewrite Ht in Hw.
  unfold blobs_of at 1. simpl. rewrite Hw, lookup_insert_eq. simpl.
  apply lookup_insert_eq.
Qed.

Lemma untitled_pages_share_a_blob_witness :
  let E := sample_env (fun _ => Response 200 (u "OK") (u "plain"))
             (fun _ => [Tag (u "article") [] [Tag (u "p") [] [Text (u "Words.")]]]) in
  is_Some (blobs_of (process_article E (u "https://www.bbc.com/news/articles/n")
                       empty_world).2 (u "articles-data")
             !! u "article-No_Title_Found.json").
Proof.
  intros E.
  pose proof (fun octets =>
                untitled_pages_share_a_blob E (u "https://www.bbc.com/news/articles/n")
                  (u "plain") octets empty_world) as H.
  eexists. eapply H.
  - split; [exists (u "UseDevelopmentStorage=true"); split; reflexivity|].
    intros n. reflexivity.
  - reflexivity.
  - reflexivity.
  - vm_compute. discriminate.
  - vm_compute. reflexivity.
Defined.

(** ** Seeding the fake articles *)

Definition seed_put (E : env) (i : nat) : list N * list N :=
  (fake_blob_name i, fake_blob E i).

(** The number of calls made before the first upload of the seed. *)
Definition seed_base (w : world) : nat :=
  (storage_calls w
   + if bool_decide (is_Some (containers w !! u "articles-data")) then 1 else 2)%nat.

Section Seed.
Context (E : env).

Lemma fake_article_encodes i :
  (i < 10)%nat ->
  Utf8.encode (dumps (default_encoder E) (fake_article i)) = Some (fake_blob E i).
Proof.
  intros Hi. do 10 (destruct i as [|i]; [vm_compute; reflexivity|]). lia.
Qed.

Lemma upload_fake_done i w b :
  (i < 10)%nat ->
  containers w !! u "articles-data" = Some b ->
  storage_fault E (storage_calls w) = None ->
  upload_blob E (u "articles-data") (fake_blob_name i)
    (dumps (default_encoder E) (fake_article i)) w
  = (inr tt,
     set_containers
       (<[u "articles-data" := <[fake_blob_name i := fake_blob E i]> b]> (containers w))
       (tick w)).
Proof.
  intros Hi Hb Hf. unfold upload_blob. rewrite fake_article_encodes by done.
  unfold service_call, bind. rewrite Hf. cbn [tick containers]. by rewrite Hb.
Qed.

Lemma upload_fake_fault i w e :
  (i < 10)%nat ->
  storage_fault E (storage_calls w) = Some e ->
  upload_blob E (u "articles-data") (fake_blob_name i)
    (dumps (default_encoder E) (fake_article i)) w
  = (inl e, tick w).
Proof.
  intros Hi Hf. unfold upload_blob. rewrite fake_article_encodes by done.
  unfold service_call, bind. by rewrite Hf.
Qed.

Lemma upload_fakes_count l w b :
  (forall i, i ∈ l -> (i < 10)%nat) ->
  containers w !! u "articles-data" = Some b ->
  (forall j, (j < length l)%nat -> storage_fault E (storage_calls w + j) = None) ->
  exists w',
    for_each l (fun i => upload_blob E (u "articles-data") (fake_blob_name i)
                           (dumps (default_encoder E) (fake_article i))) w
    = (inr tt, w') /\
    containers w'
    = <[u "articles-data" :=
          fold_left (fun m kv => <[kv.1 := kv.2]> m) (map (seed_put E) l) b]>
        (containers w) /\
    storage_calls w' = (storage_calls w + length l)%nat /\
    log w' = log w /\ requests_made w' = requests_made w.
Proof.
  revert w b. induction l as [|i l IH]; intros w b Hl Hb Hf.
  - exists w. simpl. rewrite insert_id by done. repeat split; first [done|lia].
  - cbn [for_each]. unfold bind at 1.
    pose proof (Hf 0%nat ltac:(simpl; lia)) as H0. rewrite Nat.add_0_r in H0.
    rewrite (upload_fake_done i w b) by (done || apply Hl; left).
    edestruct (IH (set_containers
                     (<[u "articles-data" := <[fake_blob_name i := fake_blob E i]> b]>
                        (containers w)) (tick w))
                 (<[fake_blob_name i := fake_blob E i]> b))
      as (w' & Hrun & Hc & Hn & Hlog & Hreq).
    + intros j Hj. apply Hl. by right.
    + simpl. apply lookup_insert_eq.
    + intros j Hj. simpl. rewrite <- Nat.add_succ_r. apply Hf. simpl. lia.
    + exists w'. rewrite Hrun. split; [done|]. simpl in *.
      rewrite Hc, insert_insert_eq, Hn, Hlog, Hreq. repeat split; first [done|lia].
Qed.

Lemma for_each_app {A} (l1 l2 : list A) (body : A -> M unit) w :
  for_each (l1 ++ l2) body w = (for_each l1 body ;; for_each l2 body) w.
Proof.
  revert w. induction l1 as [|x l1 IH]; intros w; simpl; [done|].
  unfold bind in *. destruct (body x w) as [[e|[]] w1]; [done|]. apply IH.
Qed.

Lemma upload_fakes_fault l1 i l2 w b e :
  (forall j, j ∈ l1 -> (j < 10)%nat) -> (i < 10)%nat ->
  containers w !! u "articles-data" = Some b ->
  (forall j, (j < length l1)%nat -> storage_fault E (storage_calls w + j) = None) ->
  storage_fault E (storage_calls w + length l1) = Some e ->
  exists w',
    for_each (l1 ++ i :: l2)
      (fun i => upload_blob E (u "articles-data") (fake_blob_name i)
                  (dumps (default_encoder E) (fake_article i))) w
    = (inl e, w') /\
    containers w'
    = <[u "articles-data" :=
          fold_left (fun m kv => <[kv.1 := kv.2]> m) (map (seed_put E) l1) b]>
        (containers w) /\
    storage_calls w' = (storage_calls w + length l1 + 1)%nat /\
    log w' = log w /\ requests_made w' = requests_made w.
Proof.
  intros Hl Hi Hb Hf He. rewrite for_each_app. unfold bind at 1.
  destruct (upload_fakes_count l1 w b Hl Hb Hf) as (w1 & -> & Hc & Hn & Hlog & Hreq).
  cbn [for_each]. unfold bind at 1.
  rewrite (upload_fake_fault i w1 e) by (done || by rewrite Hn).
  eexists. split; [reflexivity|]. simpl. rewrite Hn. repeat split; first [done|lia].
Qed.

(** The run of [generate_and_upload] up to the first upload. *)
Lemma seed_prefix {A} (k : M A) w :
  (exists c, BLOB_CONNECTION_STRING E = Some c /\ connection_string_ok E c = true) ->
  (forall n, (n < seed_base w)%nat -> storage_fault E n = None) ->
  exists w0,
    (from_connection_string E ;;
     let! present := container_exists E (u "articles-data") in
     (if negb present then create_container E (u "articles-data") else ret tt) ;; k) w
    = k w0 /\
    containers w0
    = <[u "articles-data" := blobs_of w (u "articles-data")]> (containers w) /\
    storage_calls w0 = seed_base w /\ log w0 = log w /\
    requests_made w0 = requests_made w.
Proof.
  intros (c & Hc & Hok) Hf. unfold seed_base in *.
  unfold from_connection_string, container_exists, create_container, service_call,
    blobs_of.
  rewrite Hc, Hok. unfold_M.
  rewrite (Hf (storage_calls w)) by (case_bool_decide; lia). cbn -[u].
  destruct (containers w !! u "articles-data") as [b|] eqn:Hb; cbn -[u].
  - eexists. split; [reflexivity|]. cbn -[u]. rewrite insert_id by done.
    repeat split; first [done|lia].
  - rewrite (Hf (S (storage_calls w))) by (cbn; lia). cbn -[u]. rewrite Hb.
    eexists. split; [reflexivity|]. cbn -[u]. repeat split; first [done|lia].
Qed.

Lemma seq_split k :
  (k < 10)%nat -> seq 0 10 = seq 0 k ++ k :: seq (S k) (9 - k).
Proof.
  intros Hk. replace 10%nat with (k + S (9 - k))%nat at 1 by lia.
  by rewrite seq_app.
Qed.

Lemma take_fake_objects k :
  (k <= 10)%nat -> map (seed_put E) (seq 0 k) = take k fake_objects.
Proof.
  intros Hk. rewrite <- (fake_objects_eq E).
  change (fun i => (fake_blob_name i, fake_blob E i)) with (seed_put E).
  rewrite firstn_map. f_equal. rewrite take_seq. f_equal. lia.
Qed.

End Seed.

(** X14: a seed run that meets its first storage fault at the upload of the
    article numbered [k + 1] answers 500 with the text of the fault, and
    takes nothing back: the [k] objects uploaded before stay in
    [articles-data], the container stays created, and no later object is
    written.  The run makes no web request. *)
Theorem GenerateFakeArticles_no_rollback (E : env) (w : world) (k : nat) (e : exn) :
  (exists c, BLOB_CONNECTION_STRING E = Some c /\ connection_string_ok E c = true) ->
  (k < 10)%nat ->
  (forall n, (n < seed_base w + k)%nat -> storage_fault E n = None) ->
  storage_fault E (seed_base w + k) = Some e ->
  exists w',
    GenerateFakeArticles E w
    = (inr {| body := u "An error occurred: " ++ exn_msg e; status_code := 500 |}, w')
    /\ containers w'
       = <[u "articles-data" :=
             fold_left (fun m kv => <[kv.1 := kv.2]> m) (take k fake_objects)
                       (blobs_of w (u "articles-data"))]> (containers w)
    /\ storage_calls w' = (seed_base w + k + 1)%nat
    /\ requests_made w' = requests_made w
    /\ log w'
       = log w ++ [(INFO, u "Python HTTP trigger function processed a request.");
                   (ERROR, u "Error generating fake articles: " ++ exn_msg e)].
Proof.
  intros Hconn Hk Hf He.
  unfold GenerateFakeArticles, generate_and_upload, try_except.
  unfold bind at 1, do at 1.
  set (w0 := logging INFO _ w).
  destruct (seed_prefix E
              (for_each (seq 0 count)
                 (fun i => upload_blob E (u "articles-data") (fake_blob_name i)
                             (dumps (default_encoder E) (fake_article i))) ;;
               do (logging INFO (u "Generated and uploaded "
                                 ++ str_of_Z (Z.of_nat count) ++ u " fake articles.")) ;;
               ret {| body := u "Successfully generated and uploaded "
                              ++ str_of_Z (Z.of_nat count) ++ u " fake articles.";
                      status_code := 200 |}) w0 Hconn)
    as (w1 & Hrun & Hc1 & Hn1 & Hlog1 & Hreq1).
  { intros n Hn. apply Hf. change (seed_base w0) with (seed_base w) in Hn. lia. }
  cbv zeta. rewrite Hrun. clear Hrun.
  change (seed_base w0) with (seed_base w) in Hn1.
  unfold bind at 1. change count with 10%nat. rewrite (seq_split k) by done.
  destruct (upload_fakes_fault E (seq 0 k) k (seq (S k) (9 - k)) w1
              (blobs_of w (u "articles-data")) e)
    as (w2 & -> & Hc2 & Hn2 & Hlog2 & Hreq2).
  - intros j Hj. apply elem_of_seq in Hj. lia.
  - done.
  - rewrite Hc1. apply lookup_insert_eq.
  - intros j Hj. rewrite length_seq in Hj. rewrite Hn1. apply Hf. lia.
  - rewrite length_seq, Hn1. done.
  - unfold_M. eexists. split; [reflexivity|]. cbn -[u].
    rewrite Hc2, Hc1, insert_insert_eq, Hn2, Hn1, length_seq, Hreq2, Hreq1, Hlog2, Hlog1.
    rewrite take_fake_objects by lia.
    repeat split; try done. subst w0. simpl. by rewrite <- app_assoc.
Qed.

(** The storage service fails at its fifth call. *)
Definition fifth_call_fails : env := {|
  BLOB_CONNECTION_STRING := Some (u "UseDevelopmentStorage=true");
  connection_string_ok := fun _ => true;
  requests_get := fun _ => Response 200 (u "OK") [];
  html_parser := fun _ => [];
  storage_fault := fun n => if (n =? 4)%nat
                            then Some (Exn "ServiceRequestError" (u "timed out"))
                            else None;
  textblob_sentiment := fun _ => inr (S754_zero false, S754_zero false);
  py_float_repr := fun _ => u "0.0";
  json_decoder := {| parse_float := fun _ => S754_zero false;
                     max_str_digits := 4300;
                     decode_wide := fun _ _ => None |}
|}.

Lemma GenerateFakeArticles_no_rollback_witness :
  exists w',
    GenerateFakeArticles fifth_call_fails empty_world
    = (inr {| body := u "An error occurred: timed out"; status_code := 500 |}, w')
    /\ size (blobs_of w' (u "articles-data")) = 2%nat.
Proof.
  destruct (GenerateFakeArticles_no_rollback fifth_call_fails empty_world 2
              (Exn "ServiceRequestError" (u "timed out")))
    as (w' & Hrun & Hc & _).
  - exists (u "UseDevelopmentStorage=true"). split; reflexivity.
  - lia.
  - intros n Hn. change (seed_base empty_world + 2)%nat with 4%nat in Hn.
    simpl. destruct (Nat.eqb_spec n 4); [lia|reflexivity].
  - reflexivity.
  - exists w'. split; [exact Hrun|].
    unfold blobs_of. rewrite Hc, lookup_insert_eq. vm_compute. reflexivity.
Defined.

Lemma GenerateFakeArticles_run (E : env) (w : world) :
  healthy E ->
  exists w',
    GenerateFakeArticles E w
    = (inr {| body := u "Successfully generated and uploaded 10 fake articles.";
              status_code := 200 |}, w')
    /\ containers w'
       = <[u "articles-data" :=
             fold_left (fun m kv => <[kv.1 := kv.2]> m) fake_objects
                       (blobs_of w (u "articles-data"))]> (containers w)
    /\ storage_calls w' = (seed_base w + 10)%nat
    /\ requests_made w' = requests_made w.
Proof.
  intros [Hconn Hf].
  unfold GenerateFakeArticles, generate_and_upload, try_except.
  unfold bind at 1, do at 1.
  set (w0 := logging INFO _ w).
  destruct (seed_prefix E
              (for_each (seq 0 count)
                 (fun i => upload_blob E (u "articles-data") (fake_blob_name i)
                             (dumps (default_encoder E) (fake_article i))) ;;
               do (logging INFO (u "Generated and uploaded "
                                 ++ str_of_Z (Z.of_nat count) ++ u " fake articles.")) ;;
               ret {| body := u "Successfully generated and uploaded "
                              ++ str_of_Z (Z.of_nat count) ++ u " fake articles.";
                      status_code := 200 |}) w0 Hconn)
    as (w1 & Hr & Hc1 & Hn1 & _ & Hreq1); [by intros|].
  cbv zeta. rewrite Hr. clear Hr.
  change (seed_base w0) with (seed_base w) in Hn1.
  unfold bind at 1. change count with 10%nat.
  destruct (upload_fakes_count E (seq 0 10) w1 (blobs_of w (u "articles-data")))
    as (w2 & -> & Hc2 & Hn2 & _ & Hreq2).
  - intros j Hj. apply elem_of_seq in Hj. lia.
  - rewrite Hc1. apply lookup_insert_eq.
  - by intros.
  - unfold_M. eexists. split; [reflexivity|]. cbn -[u].
    rewrite Hc2, Hc1, insert_insert_eq, Hn2, Hn1, Hreq2, Hreq1.
    rewrite (take_fake_objects E 10) by lia.
    change (take 10 fake_objects) with fake_objects. by repeat split.
Qed.

Lemma GenerateFakeArticles_seeded (E : env) (w : world) :
  healthy E ->
  exists w',
    GenerateFakeArticles E w
    = (inr {| body := u "Successfully generated and uploaded 10 fake articles.";
              status_code := 200 |}, w')
    /\ containers w'
       = <[u "articles-data" :=
             fold_left (fun m kv => <[kv.1 := kv.2]> m) fake_objects
                       (blobs_of w (u "articles-data"))]> (containers w).
Proof.
  intros Hh. destruct (GenerateFakeArticles_run E w Hh) as (w' & H1 & H2 & _). eauto.
Qed.

(** X15: with a healthy storage service a seed run answers 200, makes one
    call to look for the container, one more to create it when it is
    missing, and ten uploads; a second run right after it leaves the store
    exactly as the first one did. *)
Theorem GenerateFakeArticles_healthy (E : env) (w : world) :
  healthy E ->
  exists w',
    GenerateFakeArticles E w
    = (inr {| body := u "Successfully generated and uploaded 10 fake articles.";
              status_code := 200 |}, w')
    /\ containers w'
       = <[u "articles-data" :=
             fold_left (fun m kv => <[kv.1 := kv.2]> m) fake_objects
                       (blobs_of w (u "articles-data"))]> (containers w)
    /\ storage_calls w' = (seed_base w + 10)%nat
    /\ requests_made w' = requests_made w
    /\ containers (GenerateFakeArticles E w').2 = containers w'.
Proof.
  intros Hh.
  destruct (GenerateFakeArticles_run E w Hh) as (w' & Hw & Hc & Hn & Hreq).
  exists w'. repeat split; try done.
  destruct (GenerateFakeArticles_run E w' Hh) as (w'' & -> & Hc' & _).
  cbn [snd]. rewrite Hc'.
  unfold blobs_of at 1. rewrite Hc, lookup_insert_eq. cbn [default id].
  by rewrite insert_insert_eq, fold_insert_twice.
Qed.

Lemma GenerateFakeArticles_healthy_witness :
  exists w',
    GenerateFakeArticles (sample_env all_down pages) empty_world
    = (inr {| body := u "Successfully generated and uploaded 10 fake articles.";
              status_code := 200 |}, w')
    /\ storage_calls w' = 12%nat.
Proof.
  destruct (GenerateFakeArticles_healthy (sample_env all_down pages) empty_world)
    as (w' & Hrun & _ & Hn & _).
  - split; [exists (u "UseDevelopmentStorage=true"); split; reflexivity|].
    intros n. reflexivity.
  - exists w'. split; [exact Hrun|]. rewrite Hn. reflexivity.
Defined.

Lemma loads_fake_blob (E : env) (i : nat) :
  (i < 10)%nat -> loads (json_decoder E) (fake_blob E i) = Some (fake_article i).
Proof.
  intros Hi. do 10 (destruct i as [|i]; [vm_compute; reflexivity|]). lia.
Qed.

Lemma fake_article_record (i : nat) :
  fake_article i
  = article_record (u "Fake Article " ++ str_of_Z (Z.of_nat i + 1))
      (u "This is a generated fake article for scalability testing purposes.")
      (u "https://fakeurl.com/article-" ++ str_of_Z (Z.of_nat i + 1)).
Proof. reflexivity. Qed.

(** X16: the seed feeds the second stage.  With a healthy storage service,
    each of the ten objects written by [GenerateFakeArticles], which are laid
    out on one line and not indented as the records of the first stage are,
    is read back by [BlobTrigger] as the article it was made from; the
    trigger stores its title, content and URL with the sentiment block
    added under ["sentiment-"] followed by the triggering name, and leaves
    [articles-data] as the seed left it. *)
Theorem seed_then_enrich (E : env) (i : nat) (out : list N)
    (polarity subjectivity : spec_float) (w : world) :
  healthy E ->
  (i < 10)%nat ->
  let number := str_of_Z (Z.of_nat i + 1) in
  let content :=
    u "This is a generated fake article for scalability testing purposes." in
  textblob_sentiment E content = inr (polarity, subjectivity) ->
  Utf8.encode (dumps (pretty_encoder E)
                 (PDict [(u "title", PStr (u "Fake Article " ++ number));
                         (u "content", PStr content);
                         (u "url", PStr (u "https://fakeurl.com/article-" ++ number));
                         (u "sentiment", sentiment_block polarity subjectivity)]))
  = Some out ->
  let w1 := (GenerateFakeArticles E w).2 in
  exists stored,
    blobs_of w1 (u "articles-data") !! (u "fake-article-" ++ number ++ u ".json")
    = Some stored /\
    forall name size,
      let w2 := (BlobTrigger E name size stored w1).2 in
      blobs_of w2 (u "articles-sentiment") !! (u "sentiment-" ++ name) = Some out /\
      blobs_of w2 (u "articles-data") = blobs_of w1 (u "articles-data").
Proof.
  intros Hh Hi number content Hs Hout w1. subst number content.
  destruct (GenerateFakeArticles_seeded E w Hh) as (w1' & Hrun & Hc).
  assert (w1 = w1') as -> by (unfold w1; by rewrite Hrun).
  exists (fake_blob E i). split.
  { unfold blobs_of at 1. rewrite Hc, lookup_insert_eq. cbn [default id].
    apply fold_insert_member; [compute_done|].
    rewrite <- (fake_objects_eq E). rewrite list_elem_of_In. apply in_map_iff.
    exists i. split; [reflexivity|]. apply in_seq. lia. }
  intros name size w2.
  pose proof (BlobTrigger_cases E name size (fake_blob E i) w1') as Hcases.
  cbv zeta in Hcases.
  rewrite (loads_fake_blob E i Hi), fake_article_record in Hcases.
  rewrite (enrich_article_record E _ _ _ polarity subjectivity) in Hcases
    by done.
  rewrite save_to_blob_with_sentiment_eq in Hcases.
  destruct (save_with_healthy E (u "articles-sentiment")
              (fun n => u "Uploaded " ++ n
                        ++ u " to Blob Storage in container articles-sentiment.")
              (u "Error uploading sentiment data to Blob Storage: ")
              _ (u "sentiment-" ++ name) out
              (logging INFO (blob_received name size) w1') Hh Hout)
    as (w2' & Hs2 & Hw2).
  rewrite Hs2 in Hcases.
  assert (w2 = w2') as -> by (unfold w2; by rewrite Hcases).
  simpl in Hw2. split.
  - unfold blobs_of at 1. rewrite Hw2, lookup_insert_eq. simpl. apply lookup_insert_eq.
  - unfold blobs_of at 1. rewrite Hw2. by rewrite lookup_insert_ne by (by vm_compute).
Qed.

Lemma seed_then_enrich_witness :
  let E := {| BLOB_CONNECTION_STRING := Some (u "UseDevelopmentStorage=true");
              connection_string_ok := fun _ => true;
              requests_get := all_down;
              html_parser := pages;
              storage_fault := fun _ => None;
              textblob_sentiment := fun _ => inr (float_0_8, float_0_6);
              py_float_repr := fun _ => u "0.8";
              json_decoder := test_decoder |} in
  let w1 := (GenerateFakeArticles E empty_world).2 in
  exists stored,
    blobs_of w1 (u "articles-data") !! u "fake-article-3.json" = Some stored /\
    is_Some (blobs_of (BlobTrigger E (u "articles-data/fake-article-3.json") None
                         stored w1).2 (u "articles-sentiment")
               !! u "sentiment-articles-data/fake-article-3.json").
Proof.
  intros E w1.
  pose proof (fun out =>
                seed_then_enrich E 2 out float_0_8 float_0_6 empty_world) as H.
  edestruct H as (stored & Hst & Hnext).
  - split; [exists (u "UseDevelopmentStorage=true"); split; reflexivity|].
    intros n. reflexivity.
  - lia.
  - reflexivity.
  - vm_compute. reflexivity.
  - exists stored. split; [exact Hst|].
    destruct (Hnext (u "articles-data/fake-article-3.json") None) as [Hb _].
    eexists. exact Hb.
Defined.

(** ** Text that cannot be encoded *)








